(** * Connection lifecycle and session heartbeat of the TypeScript SDK client

    A shallow embedding of [Client] (connect, disconnect, createServiceClient,
    host) and of [SessionManager] (getSessionMetadata, reset, heartbeat).

    The two classes are asynchronous: a method runs until its next [await],
    and is resumed later by the event loop.  Each method is therefore a state
    machine whose states are its [await] points, and whose transitions are
    the straight-line code between two of them.  What leaves the program (an
    RPC, a dial, a timer, a closed peer connection) is recorded as an event. *)

From Stdlib Require Import String List Floats Bool Lia.
From stdpp Require Import base option list gmap strings.
Import ListNotations.
Open Scope string_scope.
Open Scope list_scope.

(** ** Values shared by the two classes *)

(** How a call, or an awaited operation, ends. *)
Inductive Completion (E A : Type) : Type :=
| Returned (a : A)
| Threw (e : E).
Arguments Returned {E A} a.
Arguments Threw {E A} e.

(** [Code] of @bufbuild/connect-web. *)
Inductive Code : Set :=
| Canceled | Unknown | InvalidArgument | DeadlineExceeded | NotFound
| AlreadyExists | PermissionDenied | ResourceExhausted | FailedPrecondition
| Aborted | OutOfRange | Unimplemented | Internal | Unavailable | DataLoss
| Unauthenticated.

Record ConnectError : Type := { message : string; code : Code }.

(** What a [catch] clause may receive from a dial or from a heartbeat. *)
Inductive Thrown : Type :=
| ThrownConnectError (e : ConnectError)
| ThrownConnectionClosed (msg : string)
| ThrownError (msg : string)
| ThrownFalsy.

(** [if (err)] *)
Definition truthy (err : Thrown) : bool :=
  match err with ThrownFalsy => false | _ => true end.

(** [ConnectionClosedError.isError(err)] *)
Definition isConnectionClosed (err : Thrown) : bool :=
  match err with ThrownConnectionClosed _ => true | _ => false end.

(** ** Numeric values of the language

    A numeric value is a number (an IEEE double) or a bigint.  An arithmetic
    operator takes two operands of one kind: on a bigint and a number it
    throws a TypeError. *)
Module JS.

Inductive RuntimeError : Type :=
| TypeError (msg : string)
| RangeError (msg : string).

Inductive Numeric : Type :=
| Number (f : float)
| BigInt (z : Z).

Definition mixedTypes : RuntimeError :=
  TypeError "Cannot mix BigInt and other types, use explicit conversions".

(** [a * b] *)
Definition mul (a b : Numeric) : Completion RuntimeError Numeric :=
  match a, b with
  | Number x, Number y => Returned (Number (x * y)%float)
  | BigInt x, BigInt y => Returned (BigInt (x * y)%Z)
  | _, _ => Threw mixedTypes
  end.

(** [a + b] *)
Definition add (a b : Numeric) : Completion RuntimeError Numeric :=
  match a, b with
  | Number x, Number y => Returned (Number (x + y)%float)
  | BigInt x, BigInt y => Returned (BigInt (x + y)%Z)
  | _, _ => Threw mixedTypes
  end.

(** [a / b]: bigints divide towards zero, and not by zero. *)
Definition div (a b : Numeric) : Completion RuntimeError Numeric :=
  match a, b with
  | Number x, Number y => Returned (Number (x / y)%float)
  | BigInt x, BigInt y =>
      if Z.eqb y 0 then Threw (RangeError "Division by zero")
      else Returned (BigInt (Z.quot x y))
  | _, _ => Threw mixedTypes
  end.

End JS.

(** google.protobuf.Duration as the generated code of robot_pb holds it: an
    int64 field is a bigint, an int32 field a number. *)
Record Duration : Type := { seconds : Z; nanos : float }.

Record StartSessionRequest : Type := { resume : string }.
Record StartSessionResponse : Type :=
  { id : string; heartbeatWindow : option Duration }.
Record SendSessionHeartbeatRequest : Type := { heartbeat_id : string }.

(** [new robotApi.StartSessionRequest()]: a proto3 string field starts empty. *)
Definition newStartSessionRequest : StartSessionRequest := {| resume := "" |}.

(** [grpc.Metadata], a string-keyed map; [set] replaces the key's value. *)
Abbreviation Metadata := (gmap string string).

(** Opaque handles of the browser and of the rpc library. *)
Inductive RTCConfiguration : Set := RtcConfig (n : nat).
Inductive RTCPeerConnection : Set := PeerConnection (n : nat).
Inductive TransportFactory : Set := Factory (n : nat).

Record Credentials : Type := { type : string; payload : string }.

Module DialWebRTCOptions.
Record t : Type := {
  disableTrickleICE : bool;
  rtcConfig : option RTCConfiguration;
  signalingAuthEntity : option string;
  signalingCredentials : option Credentials
}.
End DialWebRTCOptions.

Module DialOptions.
Record t : Type := {
  authEntity : option string;
  credentials : option Credentials;
  webrtcOptions : option DialWebRTCOptions.t
}.
End DialOptions.

(** What [dialWebRTC] resolves to. *)
Module WebRTCConnection.
Record t : Type := {
  peerConnection : RTCPeerConnection;
  transportFactory : TransportFactory
}.
End WebRTCConnection.

(** Everything the two classes do to the outside world. *)
Inductive Event : Type :=
| StartSession (req : StartSessionRequest)
| SendSessionHeartbeat (req : SendSessionHeartbeatRequest)
| ConsoleError (msg : string)
| NewWorker
| WorkerPostMessage (ms : option JS.Numeric)
| SetTimeout (ms : option JS.Numeric)
| DialDirect (address : string) (opts : DialOptions.t)
| DialWebRTC (signalingAddress : string) (host : string) (opts : DialOptions.t)
| PeerClose (pc : RTCPeerConnection)
| SetOnTrack (pc : RTCPeerConnection).

(** What the event loop hands to a suspended method when it resumes it. *)
Inductive Input : Type :=
| Resume
| StartSessionSettled (r : Completion ConnectError StartSessionResponse)
| HeartbeatSettled (r : Completion Thrown unit)
| TimerFired
| DialDirectSettled (r : Completion Thrown TransportFactory)
| DialWebRTCSettled (r : Completion Thrown WebRTCConnection.t).

(** ** Promises

    [starting] is built with both [resolve] and [reject]; [connecting] keeps
    only [resolve], so it has no rejected state.  A promise is a cell of a
    store, named by its index; settling a settled promise does nothing. *)

Inductive PromiseState : Type :=
| Pending
| Fulfilled
| Rejected (reason : ConnectError).

Inductive VoidPromiseState : Set := VoidPending | VoidFulfilled.

Definition newPromise {A} (init : A) (h : list A) : nat * list A :=
  (List.length h, h ++ [init]).

Definition settle (p : nat) (st : PromiseState) (h : list PromiseState)
  : list PromiseState :=
  match h !! p with
  | Some Pending => <[p := st]> h
  | _ => h
  end.

(** [f?.()] for a stored [resolve] *)
Definition callResolve (f : option nat) (h : list PromiseState)
  : list PromiseState :=
  match f with Some p => settle p Fulfilled h | None => h end.

(** [f?.(reason)] for a stored [reject] *)
Definition callReject (f : option nat) (reason : ConnectError)
  (h : list PromiseState) : list PromiseState :=
  match f with Some p => settle p (Rejected reason) h | None => h end.

Definition callVoidResolve (f : option nat) (h : list VoidPromiseState)
  : list VoidPromiseState :=
  match f with Some p => <[p := VoidFulfilled]> h | None => h end.

(** ** SessionManager.ts *)
Module SessionManager.

Record t : Type := {
  currentSessionID : string;
  sessionsSupported : option bool;
  heartbeatIntervalMs : option JS.Numeric;
  starting : option nat;
  startResolve : option nat;
  startReject : option nat
}.

(** The field initialisers of the class. *)
Definition new : t := {|
  currentSessionID := "";
  sessionsSupported := None;
  heartbeatIntervalMs := None;
  starting := None;
  startResolve := None;
  startReject := None
|}.

Definition set_sessionsSupported (v : option bool) (s : t) : t := {|
  currentSessionID := currentSessionID s;
  sessionsSupported := v;
  heartbeatIntervalMs := heartbeatIntervalMs s;
  starting := starting s;
  startResolve := startResolve s;
  startReject := startReject s
|}.

Definition sessionID (s : t) : string := currentSessionID s.

(** [this.sessionsSupported] used as a condition *)
Definition supported (s : t) : bool :=
  match sessionsSupported s with Some true => true | _ => false end.

Definition getSessionMetadataInner (s : t) : Metadata :=
  if supported s && negb (String.eqb (currentSessionID s) "")
  then <["viam-sid" := currentSessionID s]> ∅
  else ∅.

Definition reset (s : t) : t :=
  match starting s with
  | Some _ => s
  | None => set_sessionsSupported None s
  end.

(** *** heartbeat *)

Inductive HeartbeatK : Type :=
| HbAwaitStarting (p : nat)         (* line 78 *)
| HbAwaitSend (worker : bool)       (* line 87 *)
| HbSleeping (worker : bool)        (* lines 102 and 104: the timer is armed *)
| HbDone (r : Completion ConnectError unit).

Definition backgroundHeartbeat : bool := true.

Definition doHeartbeat (worker : bool) (s : t) : HeartbeatK * list Event :=
  (HbAwaitSend worker,
   [SendSessionHeartbeat {| heartbeat_id := currentSessionID s |}]).

(** Lines 81 to 122, reached once [starting] is undefined. *)
Definition heartbeat_launch (windowWorker : bool) (s : t)
  : HeartbeatK * list Event :=
  let worker := backgroundHeartbeat && windowWorker in
  let '(k, ev) := doHeartbeat worker s in
  (k, (if worker then [NewWorker] else []) ++ ev).

(** The [while (this.starting)] loop of lines 76 to 79. *)
Definition heartbeat_wait (windowWorker : bool) (s : t)
  : HeartbeatK * list Event :=
  match starting s with
  | Some p => (HbAwaitStarting p, [])
  | None => heartbeat_launch windowWorker s
  end.

(** [this.heartbeat()], up to its first suspension. *)
Definition heartbeat (windowWorker : bool) (s : t) : HeartbeatK * list Event :=
  if negb (supported s) || String.eqb (currentSessionID s) ""
  then (HbDone (Returned tt), [])
  else heartbeat_wait windowWorker s.

(** The [catch] clause of [doHeartbeat]. *)
Definition heartbeat_catch (err : Thrown) (s : t) : t :=
  if truthy err then
    if isConnectionClosed err then reset s else s
  else s.

(** Lines 101 to 105. *)
Definition reschedule (worker : bool) (s : t) : Event :=
  if worker then WorkerPostMessage (heartbeatIntervalMs s)
  else SetTimeout (heartbeatIntervalMs s).

Definition heartbeat_step (windowWorker : bool) (inp : Input) (k : HeartbeatK)
  (s : t) (h : list PromiseState) : option (t * HeartbeatK * list Event) :=
  match k, inp with
  | HbAwaitStarting p, Resume =>
      match h !! p with
      | Some Fulfilled =>
          let '(k', ev) := heartbeat_wait windowWorker s in Some (s, k', ev)
      | Some (Rejected reason) => Some (s, HbDone (Threw reason), [])
      | _ => None
      end
  | HbAwaitSend worker, HeartbeatSettled r =>
      let s' := match r with
                | Returned _ => s
                | Threw err => heartbeat_catch err s
                end in
      Some (s', HbSleeping worker, [reschedule worker s'])
  | HbSleeping worker, TimerFired =>
      let '(k', ev) := doHeartbeat worker s in Some (s, k', ev)
  | _, _ => None
  end.

(** *** getSessionMetadata *)

(** What a call of [getSessionMetadata] rejects with: the reason of the
    [starting] promise it awaited, or an error thrown by the runtime. *)
Inductive Rejection : Type :=
| Reason (e : ConnectError)
| Runtime (e : JS.RuntimeError).

Inductive GetSessionMetadataK : Type :=
| GsmCall
| GsmAwaitStarting (p : nat)              (* line 128 *)
| GsmAwaitStartSession                    (* line 145 *)
| GsmAwaitOwnStarting (p : option nat)    (* line 180 *)
| GsmDone (r : Completion Rejection Metadata).

(** The [finally] block, lines 183 to 186. *)
Definition getSessionMetadata_finally (s : t) (h : list PromiseState)
  : t * list PromiseState :=
  ({| currentSessionID := currentSessionID s;
      sessionsSupported := sessionsSupported s;
      heartbeatIntervalMs := heartbeatIntervalMs s;
      starting := None;
      startResolve := None;
      startReject := None |},
   callResolve (startResolve s) h).

(** Lines 139 to 142. *)
Definition startSessionReq (s : t) : StartSessionRequest :=
  if negb (String.eqb (currentSessionID s) "")
  then {| resume := currentSessionID s |}
  else newStartSessionRequest.

(** Lines 126 to 145: the waiting loop, the early return, and the start of a
    negotiation. *)
Definition getSessionMetadata_enter (s : t) (h : list PromiseState)
  : t * list PromiseState * GetSessionMetadataK * list Event :=
  match starting s with
  | Some p => (s, h, GsmAwaitStarting p, [])
  | None =>
      match sessionsSupported s with
      | Some _ => (s, h, GsmDone (Returned (getSessionMetadataInner s)), [])
      | None =>
          let '(p, h') := newPromise Pending h in
          ({| currentSessionID := currentSessionID s;
              sessionsSupported := sessionsSupported s;
              heartbeatIntervalMs := heartbeatIntervalMs s;
              starting := Some p;
              startResolve := Some p;
              startReject := Some p |},
           h', GsmAwaitStartSession, [StartSession (startSessionReq s)])
      end
  end.

(** The right-hand side of lines 175 and 176,
    [(heartbeatWindow.seconds * 1e3 + heartbeatWindow.nanos / 1e6) / 5],
    operands from left to right. *)
Definition heartbeatInterval (w : Duration)
  : Completion JS.RuntimeError JS.Numeric :=
  match JS.mul (JS.BigInt (seconds w)) (JS.Number 1e3) with
  | Threw e => Threw e
  | Returned ms =>
      match JS.div (JS.Number (nanos w)) (JS.Number 1e6) with
      | Threw e => Threw e
      | Returned rest =>
          match JS.add ms rest with
          | Threw e => Threw e
          | Returned window => JS.div window (JS.Number 5)
          end
      end
  end.

(** Lines 157 to 161 and 164 to 171: reject, return an empty metadata, and
    run the [finally] block. *)
Definition getSessionMetadata_bail (msg : string) (s : t)
  (h : list PromiseState)
  : t * list PromiseState * GetSessionMetadataK :=
  let h1 := callReject (startReject s) {| message := msg; code := Internal |} h in
  let '(s2, h2) := getSessionMetadata_finally s h1 in
  (s2, h2, GsmDone (Returned ∅)).

(** Lines 146 to 180, once [startSession] has settled.  An error thrown by
    line 176 leaves the [try] block through [finally] and rejects the call;
    by then lines 173 and 174 have recorded the session. *)
Definition getSessionMetadata_settled (windowWorker : bool)
  (r : Completion ConnectError StartSessionResponse) (s : t)
  (h : list PromiseState)
  : t * list PromiseState * GetSessionMetadataK * list HeartbeatK * list Event :=
  match r with
  | Threw err =>
      let '(s1, h1, ev) :=
        match code err with
        | Unimplemented =>
            (set_sessionsSupported (Some false) s,
             callResolve (startResolve s) h,
             [ConsoleError "sessions unsupported; will not try again"])
        | _ => (s, callReject (startReject s) err h, [])
        end in
      let '(s2, h2, k) :=
        getSessionMetadata_bail "expected response to start session" s1 h1 in
      (s2, h2, k, [], ev)
  | Returned resp =>
      match heartbeatWindow resp with
      | None =>
          let '(s2, h2, k) :=
            getSessionMetadata_bail
              "expected heartbeat window in response to start session" s h in
          (s2, h2, k, [], [])
      | Some w =>
          let s1 := {| currentSessionID := id resp;
                       sessionsSupported := Some true;
                       heartbeatIntervalMs := heartbeatIntervalMs s;
                       starting := starting s;
                       startResolve := startResolve s;
                       startReject := startReject s |} in
          match heartbeatInterval w with
          | Threw e =>
              let '(s2, h2) := getSessionMetadata_finally s1 h in
              (s2, h2, GsmDone (Threw (Runtime e)), [], [])
          | Returned ms =>
              let s2 := {| currentSessionID := currentSessionID s1;
                           sessionsSupported := sessionsSupported s1;
                           heartbeatIntervalMs := Some ms;
                           starting := starting s1;
                           startResolve := startResolve s1;
                           startReject := startReject s1 |} in
              let h2 := callResolve (startResolve s2) h in
              let '(hb, ev) := heartbeat windowWorker s2 in
              (s2, h2, GsmAwaitOwnStarting (starting s2), [hb], ev)
          end
      end
  end.

Definition getSessionMetadata_step (windowWorker : bool) (inp : Input)
  (k : GetSessionMetadataK) (s : t) (h : list PromiseState)
  : option (t * list PromiseState * GetSessionMetadataK
            * list HeartbeatK * list Event) :=
  match k, inp with
  | GsmCall, Resume =>
      let '(s', h', k', ev) := getSessionMetadata_enter s h in
      Some (s', h', k', [], ev)
  | GsmAwaitStarting p, Resume =>
      match h !! p with
      | Some Fulfilled =>
          let '(s', h', k', ev) := getSessionMetadata_enter s h in
          Some (s', h', k', [], ev)
      | Some (Rejected reason) =>
          Some (s, h, GsmDone (Threw (Reason reason)), [], [])
      | _ => None
      end
  | GsmAwaitStartSession, StartSessionSettled r =>
      Some (getSessionMetadata_settled windowWorker r s h)
  | GsmAwaitOwnStarting p, Resume =>
      let settled := match p with
                     | None => Some Fulfilled
                     | Some q => h !! q
                     end in
      match settled with
      | Some Fulfilled =>
          let md := getSessionMetadataInner s in
          let '(s', h') := getSessionMetadata_finally s h in
          Some (s', h', GsmDone (Returned md), [], [])
      | Some (Rejected reason) =>
          let '(s', h') := getSessionMetadata_finally s h in
          Some (s', h', GsmDone (Threw (Reason reason)), [], [])
      | _ => None
      end
  | _, _ => None
  end.

End SessionManager.

(** ** Client.ts *)

Module WebRTCOptions.
Record t : Type := {
  enabled : bool;
  host : string;
  signalingAddress : string;
  rtcConfig : option RTCConfiguration
}.
End WebRTCOptions.

Module SessionOptions.
Record t : Type := { disabled : bool }.
End SessionOptions.

Module Client.

Record t : Type := {
  serviceHost : string;
  webrtcOptions : option WebRTCOptions.t;
  sessionOptions : option SessionOptions.t;
  sessionManager : SessionManager.t;
  peerConn : option RTCPeerConnection;
  transportFactory : option TransportFactory;
  connecting : option nat;
  connectResolve : option nat;
  savedAuthEntity : option string;
  savedCreds : option Credentials
}.

Definition new (serviceHost : string) (webrtcOptions : option WebRTCOptions.t)
  (sessionOptions : option SessionOptions.t) : t := {|
  serviceHost := serviceHost;
  webrtcOptions := webrtcOptions;
  sessionOptions := sessionOptions;
  sessionManager := SessionManager.new;
  peerConn := None;
  transportFactory := None;
  connecting := None;
  connectResolve := None;
  savedAuthEntity := None;
  savedCreds := None
|}.

Definition set_sessionManager (sm : SessionManager.t) (c : t) : t := {|
  serviceHost := serviceHost c;
  webrtcOptions := webrtcOptions c;
  sessionOptions := sessionOptions c;
  sessionManager := sm;
  peerConn := peerConn c;
  transportFactory := transportFactory c;
  connecting := connecting c;
  connectResolve := connectResolve c;
  savedAuthEntity := savedAuthEntity c;
  savedCreds := savedCreds c
|}.

Definition set_peerConn (pc : option RTCPeerConnection) (c : t) : t := {|
  serviceHost := serviceHost c;
  webrtcOptions := webrtcOptions c;
  sessionOptions := sessionOptions c;
  sessionManager := sessionManager c;
  peerConn := pc;
  transportFactory := transportFactory c;
  connecting := connecting c;
  connectResolve := connectResolve c;
  savedAuthEntity := savedAuthEntity c;
  savedCreds := savedCreds c
|}.

Definition set_transportFactory (tf : option TransportFactory) (c : t) : t := {|
  serviceHost := serviceHost c;
  webrtcOptions := webrtcOptions c;
  sessionOptions := sessionOptions c;
  sessionManager := sessionManager c;
  peerConn := peerConn c;
  transportFactory := tf;
  connecting := connecting c;
  connectResolve := connectResolve c;
  savedAuthEntity := savedAuthEntity c;
  savedCreds := savedCreds c
|}.

Definition set_connecting (p r : option nat) (c : t) : t := {|
  serviceHost := serviceHost c;
  webrtcOptions := webrtcOptions c;
  sessionOptions := sessionOptions c;
  sessionManager := sessionManager c;
  peerConn := peerConn c;
  transportFactory := transportFactory c;
  connecting := p;
  connectResolve := r;
  savedAuthEntity := savedAuthEntity c;
  savedCreds := savedCreds c
|}.

Definition set_saved (a : option string) (cr : option Credentials) (c : t)
  : t := {|
  serviceHost := serviceHost c;
  webrtcOptions := webrtcOptions c;
  sessionOptions := sessionOptions c;
  sessionManager := sessionManager c;
  peerConn := peerConn c;
  transportFactory := transportFactory c;
  connecting := connecting c;
  connectResolve := connectResolve c;
  savedAuthEntity := a;
  savedCreds := cr
|}.

Definition sessionId (c : t) : string :=
  SessionManager.sessionID (sessionManager c).

Definition notConnectedYetStr : string := "not connected yet".

(** The factory handed to the session manager by the constructor, lines 44
    to 49: it looks for [this.transportFactory] when a transport is asked
    for.  A transport is the factory it came from and the options it got. *)
Definition innerTransportFactory {Opts : Type} (c : t) (opts : Opts)
  : Completion string (TransportFactory * Opts) :=
  match transportFactory c with
  | None => Threw notConnectedYetStr
  | Some f => Returned (f, opts)
  end.

(** What a service client is given as its [transport] option: the raw
    factory, or the closure that the [transportFactory] getter of the session
    manager builds on every read. *)
Inductive ClientTransportFactory : Set :=
| RawFactory (f : TransportFactory)
| SessionFactory.

(** [this.sessionOptions?.disabled] *)
Definition sessionsDisabled (c : t) : bool :=
  match sessionOptions c with
  | Some o => SessionOptions.disabled o
  | None => false
  end.

(** Lines 59 to 61, and 71 to 73. *)
Definition clientTransportFactory (c : t) : option ClientTransportFactory :=
  if sessionsDisabled c
  then RawFactory <$> transportFactory c
  else Some SessionFactory.

Definition createServiceClient {T : Type}
  (SC : string -> ClientTransportFactory -> T) (c : t) : Completion string T :=
  match clientTransportFactory c with
  | None => Threw notConnectedYetStr
  | Some f => Returned (SC (serviceHost c) f)
  end.

Definition host (c : t) : Completion string string :=
  match clientTransportFactory c with
  | None => Threw notConnectedYetStr
  | Some _ => Returned (serviceHost c)
  end.

(** Lines 87 to 90, and 108 to 111. *)
Definition closePeerConn (c : t) : t * list Event :=
  match peerConn c with
  | Some pc => (set_peerConn None c, [PeerClose pc])
  | None => (c, [])
  end.

(** *** disconnect *)

Inductive DisconnectK : Type :=
| DiscCall
| DiscAwaitConnecting (p : nat)    (* line 84 *)
| DiscDone.

Definition disconnect_enter (c : t) : t * DisconnectK * list Event :=
  match connecting c with
  | Some p => (c, DiscAwaitConnecting p, [])
  | None =>
      let '(c1, ev) := closePeerConn c in
      (set_sessionManager (SessionManager.reset (sessionManager c1)) c1,
       DiscDone, ev)
  end.

Definition disconnect_step (inp : Input) (k : DisconnectK) (c : t)
  (h : list VoidPromiseState) : option (t * DisconnectK * list Event) :=
  match k, inp with
  | DiscCall, Resume => Some (disconnect_enter c)
  | DiscAwaitConnecting p, Resume =>
      match h !! p with
      | Some VoidFulfilled => Some (disconnect_enter c)
      | _ => None
      end
  | _, _ => None
  end.

(** *** connect *)

Inductive ConnectK : Type :=
| ConnCall (authEntity : option string) (creds : option Credentials)
| ConnAwaitConnecting (p : nat)    (* line 100 *)
| ConnAwaitDialWebRTC              (* line 140 *)
| ConnAwaitDialDirect              (* line 192 *)
| ConnDone (r : Completion Thrown unit).

(** A default parameter: used when the argument is left out. *)
Definition orDefault {A} (arg dflt : option A) : option A :=
  match arg with Some a => Some a | None => dflt end.

(** [a || b] on strings *)
Definition orElse (a b : string) : string :=
  if String.eqb a "" then b else a.

(** Lines 120 to 127. *)
Definition dialOptions (authEntity : option string)
  (creds : option Credentials) (c : t) : DialOptions.t := {|
  DialOptions.authEntity := authEntity;
  DialOptions.credentials := creds;
  DialOptions.webrtcOptions := Some {|
    DialWebRTCOptions.disableTrickleICE := false;
    DialWebRTCOptions.rtcConfig := webrtcOptions c ≫= WebRTCOptions.rtcConfig;
    DialWebRTCOptions.signalingAuthEntity := None;
    DialWebRTCOptions.signalingCredentials := None |}
|}.

(** Lines 135 to 138. *)
Definition withSignalingAuth (opts : DialOptions.t) : DialOptions.t := {|
  DialOptions.authEntity := DialOptions.authEntity opts;
  DialOptions.credentials := DialOptions.credentials opts;
  DialOptions.webrtcOptions :=
    match DialOptions.webrtcOptions opts with
    | Some w => Some {|
        DialWebRTCOptions.disableTrickleICE :=
          DialWebRTCOptions.disableTrickleICE w;
        DialWebRTCOptions.rtcConfig := DialWebRTCOptions.rtcConfig w;
        DialWebRTCOptions.signalingAuthEntity := DialOptions.authEntity opts;
        DialWebRTCOptions.signalingCredentials := DialOptions.credentials opts |}
    | None => None
    end
|}.

(** Lines 133 to 140 and 191 to 192: which dialer is called, and with what. *)
Definition dial (opts : DialOptions.t) (c : t) : ConnectK * Event :=
  match webrtcOptions c with
  | Some w =>
      if WebRTCOptions.enabled w
      then (ConnAwaitDialWebRTC,
            DialWebRTC (orElse (WebRTCOptions.signalingAddress w) (serviceHost c))
                       (WebRTCOptions.host w) (withSignalingAuth opts))
      else (ConnAwaitDialDirect, DialDirect (serviceHost c) opts)
  | None => (ConnAwaitDialDirect, DialDirect (serviceHost c) opts)
  end.

(** The [finally] block, lines 195 to 202. *)
Definition connect_finally (c : t) (h : list VoidPromiseState)
  : t * list VoidPromiseState :=
  (set_connecting None None c, callVoidResolve (connectResolve c) h).

(** The loop of lines 98 to 102. *)
Definition connect_wait (c : t) : ConnectK :=
  match connecting c with
  | Some p => ConnAwaitConnecting p
  | None => ConnDone (Returned tt)
  end.

(** Lines 94 to 140 (or 192): from the call to the dial. *)
Definition connect_enter (authEntityArg : option string)
  (credsArg : option Credentials) (c : t) (h : list VoidPromiseState)
  : t * list VoidPromiseState * ConnectK * list Event :=
  let authEntity := orDefault authEntityArg (savedAuthEntity c) in
  let creds := orDefault credsArg (savedCreds c) in
  match connecting c with
  | Some p => (c, h, connect_wait c, [])
  | None =>
      let '(p, h1) := newPromise VoidPending h in
      let c1 := set_connecting (Some p) (Some p) c in
      let '(c2, ev) := closePeerConn c1 in
      let c3 :=
        set_sessionManager (SessionManager.reset (sessionManager c2)) c2 in
      let opts := dialOptions authEntity creds c3 in
      let c4 := set_saved authEntity creds c3 in
      let '(k, d) := dial opts c4 in
      (c4, h1, k, ev ++ [d])
  end.

Definition connect_step (inp : Input) (k : ConnectK) (c : t)
  (h : list VoidPromiseState)
  : option (t * list VoidPromiseState * ConnectK * list Event) :=
  match k, inp with
  | ConnCall a cr, Resume => Some (connect_enter a cr c h)
  | ConnAwaitConnecting p, Resume =>
      match h !! p with
      | Some VoidFulfilled => Some (c, h, connect_wait c, [])
      | _ => None
      end
  | ConnAwaitDialWebRTC, DialWebRTCSettled (Returned conn) =>
      let c1 := set_peerConn (Some (WebRTCConnection.peerConnection conn)) c in
      let c2 :=
        set_transportFactory (Some (WebRTCConnection.transportFactory conn)) c1 in
      let '(c3, h3) := connect_finally c2 h in
      Some (c3, h3, ConnDone (Returned tt),
            [SetOnTrack (WebRTCConnection.peerConnection conn)])
  | ConnAwaitDialWebRTC, DialWebRTCSettled (Threw err) =>
      let '(c1, h1) := connect_finally c h in
      Some (c1, h1, ConnDone (Threw err), [])
  | ConnAwaitDialDirect, DialDirectSettled (Returned f) =>
      let c1 := set_transportFactory (Some f) c in
      let '(c2, h2) := connect_finally c1 h in
      Some (c2, h2, ConnDone (Returned tt), [])
  | ConnAwaitDialDirect, DialDirectSettled (Threw err) =>
      let '(c1, h1) := connect_finally c h in
      Some (c1, h1, ConnDone (Threw err), [])
  | _, _ => None
  end.

End Client.

(** ** The event loop

    One client, the promises it has created, and the calls that are
    suspended on it.  A step resumes one suspended call with the input it is
    waiting for; which one runs next is left open, so every interleaving the
    browser can produce is a run of this system. *)
Module EventLoop.

Inductive Task : Type :=
| Connect (k : Client.ConnectK)
| Disconnect (k : Client.DisconnectK)
| GetSessionMetadata (k : SessionManager.GetSessionMetadataK)
| Heartbeat (k : SessionManager.HeartbeatK).

Record World : Type := {
  client : Client.t;
  startPromises : list PromiseState;
  connectPromises : list VoidPromiseState;
  windowWorker : bool
}.

Definition boot (c : Client.t) (windowWorker : bool) : World := {|
  client := c;
  startPromises := [];
  connectPromises := [];
  windowWorker := windowWorker
|}.

Definition withClient (c : Client.t) (h : list VoidPromiseState) (w : World)
  : World := {|
  client := c;
  startPromises := startPromises w;
  connectPromises := h;
  windowWorker := windowWorker w
|}.

Definition withSessionManager (s : SessionManager.t) (h : list PromiseState)
  (w : World) : World := {|
  client := Client.set_sessionManager s (client w);
  startPromises := h;
  connectPromises := connectPromises w;
  windowWorker := windowWorker w
|}.

Definition sessionManager (w : World) : SessionManager.t :=
  Client.sessionManager (client w).

(** Resume one suspended call: the new world, what the call has become, the
    heartbeat loops it has started, and what it did to the outside. *)
Definition step (inp : Input) (t : Task) (w : World)
  : option (World * Task * list Task * list Event) :=
  match t with
  | Connect k =>
      match Client.connect_step inp k (client w) (connectPromises w) with
      | Some (c, h, k', ev) => Some (withClient c h w, Connect k', [], ev)
      | None => None
      end
  | Disconnect k =>
      match Client.disconnect_step inp k (client w) (connectPromises w) with
      | Some (c, k', ev) =>
          Some (withClient c (connectPromises w) w, Disconnect k', [], ev)
      | None => None
      end
  | GetSessionMetadata k =>
      match SessionManager.getSessionMetadata_step (windowWorker w) inp k
              (sessionManager w) (startPromises w) with
      | Some (s, h, k', hb, ev) =>
          Some (withSessionManager s h w, GetSessionMetadata k',
                map Heartbeat hb, ev)
      | None => None
      end
  | Heartbeat k =>
      match SessionManager.heartbeat_step (windowWorker w) inp k
              (sessionManager w) (startPromises w) with
      | Some (s, k', ev) =>
          Some (withSessionManager s (startPromises w) w, Heartbeat k', [], ev)
      | None => None
      end
  end.

(** The calls a user of the two classes can make. *)
Inductive Call : Type :=
| CallConnect (authEntity : option string) (creds : option Credentials)
| CallDisconnect
| CallGetSessionMetadata.

Definition called (c : Call) : Task :=
  match c with
  | CallConnect a cr => Connect (Client.ConnCall a cr)
  | CallDisconnect => Disconnect Client.DiscCall
  | CallGetSessionMetadata => GetSessionMetadata SessionManager.GsmCall
  end.

Definition System : Type := World * list Task.

Inductive sys_step : System -> list Event -> System -> Prop :=
| sys_resume w w' t t' before after started inp ev :
    step inp t w = Some (w', t', started, ev) ->
    sys_step (w, before ++ t :: after) ev
             (w', before ++ t' :: after ++ started)
| sys_call w pool c :
    sys_step (w, pool) [] (w, pool ++ [called c])
| sys_reset w pool :
    sys_step (w, pool) []
      (withSessionManager (SessionManager.reset (sessionManager w))
         (startPromises w) w, pool).

(** Runs, with the events they produce in order. *)
Inductive sys_run : System -> list Event -> System -> Prop :=
| run_nil x : sys_run x [] x
| run_cons x y z ev evs :
    sys_step x ev y -> sys_run y evs z -> sys_run x (ev ++ evs) z.

(** Run one call alone: resume it with each input in turn. *)
Fixpoint run (inps : list Input) (t : Task) (w : World) (trace : list Event)
  : option (World * Task * list Task * list Event) :=
  match inps with
  | [] => Some (w, t, [], trace)
  | inp :: rest =>
      match step inp t w with
      | Some (w', t', started, ev) =>
          match run rest t' w' (trace ++ ev) with
          | Some (w'', t'', started', trace') =>
              Some (w'', t'', started ++ started', trace')
          | None => None
          end
      | None => None
      end
  end.

(** A call is in the middle of a dial. *)
Definition dialing (t : Task) : bool :=
  match t with
  | Connect Client.ConnAwaitDialWebRTC => true
  | Connect Client.ConnAwaitDialDirect => true
  | _ => false
  end.

(** A call is waiting for the answer to [startSession] (line 145). *)
Definition awaitingStartSession (t : Task) : bool :=
  match t with
  | GetSessionMetadata SessionManager.GsmAwaitStartSession => true
  | _ => false
  end.

(** A call has recorded a session and waits on its own promise (line 180). *)
Definition awaitingOwnStarting (t : Task) : bool :=
  match t with
  | GetSessionMetadata (SessionManager.GsmAwaitOwnStarting _) => true
  | _ => false
  end.

Fixpoint count {A} (f : A -> bool) (l : list A) : nat :=
  match l with
  | [] => 0
  | a :: l' => (if f a then 1 else 0) + count f l'
  end.

(** 1 when the field holds a promise, 0 when it is undefined. *)
Definition held {A} (o : option A) : nat :=
  match o with Some _ => 1 | None => 0 end.

(** What ties the fields to the suspended calls: [connecting] is set exactly
    while one call is dialing, [starting] exactly while one call is
    negotiating, and the support flag tells how far that negotiation is. *)
Definition inv (x : System) : Prop :=
  let w := fst x in
  let pool := snd x in
  count dialing pool = held (Client.connecting (client w)) /\
  count awaitingStartSession pool + count awaitingOwnStarting pool
    = held (SessionManager.starting (sessionManager w)) /\
  (0 < count awaitingStartSession pool ->
   SessionManager.sessionsSupported (sessionManager w) = None) /\
  (0 < count awaitingOwnStarting pool ->
   SessionManager.sessionsSupported (sessionManager w) = Some true).

(** The systems that a freshly constructed client can get into. *)
Definition reachable (x : System) : Prop :=
  exists serviceHost webrtcOptions sessionOptions windowWorker evs,
    sys_run
      (boot (Client.new serviceHost webrtcOptions sessionOptions) windowWorker,
       [])
      evs x.

Definition isDial (e : Event) : bool :=
  match e with
  | DialDirect _ _ => true
  | DialWebRTC _ _ _ => true
  | _ => false
  end.

Definition isStartSession (e : Event) : bool :=
  match e with StartSession _ => true | _ => false end.

Definition isPeerClose (e : Event) : bool :=
  match e with PeerClose _ => true | _ => false end.

End EventLoop.

(** ** Concrete clients and answers, for the examples below *)

Import EventLoop.

(** A client built with the host alone, in a window without [Worker]. *)
Definition fresh : World := boot (Client.new "robot.local" None None) false.

(** A client in the middle of a first [connect], made as "alice". *)
Definition dialingAsAlice : World :=
  match step Resume (Connect (Client.ConnCall (Some "alice") None))
          (boot (Client.new "robot.local" None None) false) with
  | Some (w, _, _, _) => w
  | None => boot (Client.new "robot.local" None None) false
  end.

(** The answer of the spec's scenario: id "abc", a window of five seconds. *)
Definition abcResponse : StartSessionResponse :=
  {| id := "abc"; heartbeatWindow := Some {| seconds := 5; nanos := 0 |} |}.

(** A success answer that lacks the heartbeat window. *)
Definition noWindowResponse : StartSessionResponse :=
  {| id := "abc"; heartbeatWindow := None |}.

Definition unimplemented : ConnectError :=
  {| message := "unknown method StartSession"; code := Unimplemented |}.

Definition unavailable : ConnectError :=
  {| message := "connection refused"; code := Unavailable |}.

(** The state of a task after a run; the fresh world if the run is stuck. *)
Definition worldAfter (inps : list Input) (t : Task) (w : World) : World :=
  match run inps t w [] with
  | Some (w', _, _, _) => w'
  | None => w
  end.

(** The fresh client after an "unimplemented" answer to its first call. *)
Definition unsupportedWorld : World :=
  worldAfter [Resume; StartSessionSettled (Threw unimplemented)]
    (GetSessionMetadata SessionManager.GsmCall) fresh.

(** The fresh client after the answer "abc" to its first call: the session
    is recorded, and the call has ended. *)
Definition sessionAbc : World :=
  worldAfter [Resume; StartSessionSettled (Returned abcResponse)]
    (GetSessionMetadata SessionManager.GsmCall) fresh.

(** ** What the promises, the peer connection and the timers are tied to *)

(** A settled promise of the first store is found, unchanged, in the second. *)
Definition keeps (h h' : list PromiseState) : Prop :=
  forall q st, h !! q = Some st -> st <> Pending -> h' !! q = Some st.

Definition keepsVoid (h h' : list VoidPromiseState) : Prop :=
  forall q, h !! q = Some VoidFulfilled -> h' !! q = Some VoidFulfilled.

(** While [connecting] holds a promise: [connectResolve] resolves that very
    promise, the promise is pending, and no peer connection is held. *)
Definition connectingTied (w : World) : Prop :=
  match Client.connecting (client w) with
  | Some p =>
      Client.connectResolve (client w) = Some p /\
      connectPromises w !! p = Some VoidPending /\
      Client.peerConn (client w) = None
  | None => True
  end.

(** While [starting] holds a promise, [startResolve] and [startReject] are
    the two functions of that very promise. *)
Definition startingTied (w : World) : Prop :=
  match SessionManager.starting (sessionManager w) with
  | Some p =>
      SessionManager.startResolve (sessionManager w) = Some p /\
      SessionManager.startReject (sessionManager w) = Some p
  | None => True
  end.

(** While a call waits for the answer to [startSession], the promise in
    [starting] is pending. *)
Definition negotiationPending (x : System) : Prop :=
  0 < count awaitingStartSession (snd x) ->
  exists p,
    SessionManager.starting (sessionManager (fst x)) = Some p /\
    startPromises (fst x) !! p = Some Pending.

(** A call suspended at line 180 waits on a fulfilled promise. *)
Definition ownSettled (h : list PromiseState) (t : Task) : Prop :=
  match t with
  | GetSessionMetadata (SessionManager.GsmAwaitOwnStarting (Some p)) =>
      h !! p = Some Fulfilled
  | _ => True
  end.

(** Where there is a heartbeat loop the interval is defined, and the loop
    re-arms through the worker exactly if the window has [Worker]. *)
Definition loopArmed (w : World) (t : Task) : Prop :=
  match t with
  | Heartbeat k =>
      SessionManager.heartbeatIntervalMs (sessionManager w) <> None /\
      match k with
      | SessionManager.HbAwaitSend b | SessionManager.HbSleeping b =>
          b = windowWorker w
      | _ => True
      end
  | _ => True
  end.

Definition tied (x : System) : Prop :=
  connectingTied (fst x) /\
  startingTied (fst x) /\
  negotiationPending x /\
  Forall (ownSettled (startPromises (fst x))) (snd x) /\
  Forall (loopArmed (fst x)) (snd x).

(** The options a dial was made with. *)
Definition dialOptionsOf (e : Event) : option DialOptions.t :=
  match e with
  | DialDirect _ opts => Some opts
  | DialWebRTC _ _ opts => Some opts
  | _ => None
  end.

(** ** components/camera/ClientES.ts *)

Module GetPointCloudRequest.
Record t : Type := { mimeType : string; name : string }.
End GetPointCloudRequest.

Module GetPointCloudResponse.
Record t : Type := { mimeType : string; pointCloud : list Byte.byte }.
End GetPointCloudResponse.

Module CameraClientES.

(** What leaves [getPointCloud]: the base URL of the transport it builds,
    and the message. *)
Inductive Request : Type :=
| GetPointCloud (baseUrl : string) (request : GetPointCloudRequest.t).

Inductive Resumed : Type :=
| GpcResume
| GpcSettled (r : Completion Thrown GetPointCloudResponse.t).

Inductive GetPointCloudK : Type :=
| GpcCall
| GpcAwaitResponse                                   (* line 29 *)
| GpcDone (r : Completion Thrown (list Byte.byte)).

Section WithMimeType.

(** [MimeType.PCD], declared in ./Camera. *)
Variable PCD : string.

(** [getPointCloud] of the camera client named [name], whose [client] field
    refers to the client [c]. *)
Definition getPointCloud_step (inp : Resumed) (k : GetPointCloudK)
  (name : string) (c : Client.t) : option (GetPointCloudK * list Request) :=
  match k, inp with
  | GpcCall, GpcResume =>
      let request :=
        {| GetPointCloudRequest.mimeType := PCD;
           GetPointCloudRequest.name := name |} in
      match Client.host c with
      | Threw msg => Some (GpcDone (Threw (ThrownError msg)), [])
      | Returned baseUrl =>
          Some (GpcAwaitResponse, [GetPointCloud baseUrl request])
      end
  | GpcAwaitResponse, GpcSettled (Returned response) =>
      Some (GpcDone (Returned (GetPointCloudResponse.pointCloud response)), [])
  | GpcAwaitResponse, GpcSettled (Threw err) => Some (GpcDone (Threw err), [])
  | _, _ => None
  end.

End WithMimeType.

End CameraClientES.

(** A first call is waiting for the answer to [startSession]. *)
Definition negotiatingWorld : World :=
  worldAfter [Resume] (GetSessionMetadata SessionManager.GsmCall) fresh.

(** A direct connection has been made: factory 7, no peer connection. *)
Definition connectedDirect : World :=
  worldAfter [Resume; DialDirectSettled (Returned (Factory 7))]
    (Connect (Client.ConnCall (Some "alice") None)) fresh.

(** A client configured for WebRTC, with an empty signaling address. *)
Definition freshWebRTC : World :=
  boot (Client.new "robot.local"
          (Some {| WebRTCOptions.enabled := true;
                   WebRTCOptions.host := "robot.webrtc";
                   WebRTCOptions.signalingAddress := "";
                   WebRTCOptions.rtcConfig := None |})
          None) true.

(** ... connected: peer connection 3, factory 4. *)
Definition connectedWebRTC : World :=
  worldAfter
    [Resume;
     DialWebRTCSettled
       (Returned {| WebRTCConnection.peerConnection := PeerConnection 3;
                    WebRTCConnection.transportFactory := Factory 4 |})]
    (Connect (Client.ConnCall None None)) freshWebRTC.

(** A second call waited on the first negotiation, which was then answered
    with a failure. *)
Definition failedNegotiation : World :=
  worldAfter [StartSessionSettled (Threw unavailable)]
    (GetSessionMetadata SessionManager.GsmAwaitStartSession) negotiatingWorld.

(** ... connected over WebRTC, and then answered "abc" on its first
    [getSessionMetadata] call. *)
Definition connectedWithSession : World :=
  worldAfter [Resume; StartSessionSettled (Returned abcResponse)]
    (GetSessionMetadata SessionManager.GsmCall) connectedWebRTC.

(** ** Heartbeat loops *)

Definition isHeartbeat (t : Task) : bool :=
  match t with Heartbeat _ => true | _ => false end.

(** What only [heartbeat] does to the outside. *)
Definition isBeat (e : Event) : bool :=
  match e with
  | SendSessionHeartbeat _ | NewWorker | WorkerPostMessage _ | SetTimeout _ =>
      true
  | _ => false
  end.

(** No loop is running, no interval is stored, and no call is suspended at
    line 180. *)
Definition loopless (x : System) : Prop :=
  SessionManager.heartbeatIntervalMs (sessionManager (fst x)) = None /\
  count isHeartbeat (snd x) = 0 /\
  count awaitingOwnStarting (snd x) = 0.

(** A manager as [heartbeat] and a later [reset] would leave it, had line 176
    stored an interval of 1000: session "abc" with a loop running. *)
Definition beatingAbc : World :=
  withSessionManager
    {| SessionManager.currentSessionID := "abc";
       SessionManager.sessionsSupported := None;
       SessionManager.heartbeatIntervalMs := Some (JS.Number 1000);
       SessionManager.starting := None;
       SessionManager.startResolve := None;
       SessionManager.startReject := None |}
    [Fulfilled] fresh.


(** * Properties *)

(** ** Counting suspended calls *)

Lemma count_app {A} (f : A -> bool) (l1 l2 : list A) :
  count f (l1 ++ l2) = count f l1 + count f l2.
Proof.
  induction l1 as [|a l1 IH]; simpl; [reflexivity|].
  rewrite IH. lia.
Qed.

Lemma count_pos_elem {A} (f : A -> bool) (l : list A) (a : A) :
  In a l -> f a = true -> 0 < count f l.
Proof.
  induction l as [|b l IH]; simpl; [tauto|].
  intros [->|Hin] Hf.
  - rewrite Hf. lia.
  - specialize (IH Hin Hf). lia.
Qed.

Lemma count_heartbeats (f : Task -> bool) (l : list SessionManager.HeartbeatK) :
  (forall k, f (Heartbeat k) = false) -> count f (map Heartbeat l) = 0.
Proof.
  intros Hf. induction l as [|k l IH]; simpl; [reflexivity|].
  rewrite Hf, IH. reflexivity.
Qed.

(** ** The invariant of the event loop *)

Ltac break_match H :=
  match type of H with
  | context [match ?x with _ => _ end] =>
      is_var x; destruct x; simpl in H; try discriminate H
  | context [match ?h !! ?p with _ => _ end] =>
      let E := fresh "E" in
      destruct (h !! p) eqn:E; simpl in H; try discriminate H
  | context [match ?f ?x with _ => _ end] =>
      is_var x;
      let E := fresh "E" in
      destruct (f x) eqn:E; simpl in H; try discriminate H
  | context [if ?f ?x ?y then _ else _] =>
      let E := fresh "E" in
      destruct (f x y) eqn:E; simpl in H; try discriminate H
  end.

Ltac break_step H := repeat break_match H.

Lemma inv_boot c windowWorker :
  Client.connecting c = None ->
  SessionManager.starting (Client.sessionManager c) = None ->
  inv (boot c windowWorker, []).
Proof.
  intros Hc Hs. unfold inv, sessionManager; simpl.
  rewrite Hc, Hs. simpl. repeat split; lia.
Qed.

Lemma inv_reset w pool :
  inv (w, pool) ->
  inv (withSessionManager (SessionManager.reset (sessionManager w))
         (startPromises w) w, pool).
Proof.
  unfold inv, sessionManager, SessionManager.reset; simpl.
  intros (Hd & Hn & Hs & Ho).
  destruct (SessionManager.starting (Client.sessionManager (client w))) eqn:E;
    simpl in *; rewrite ?E; simpl.
  - auto.
  - repeat split; auto; intros; lia.
Qed.

Lemma inv_call w pool c :
  inv (w, pool) -> inv (w, pool ++ [called c]).
Proof.
  unfold inv; simpl. rewrite !count_app.
  destruct c; simpl; rewrite !Nat.add_0_r; auto.
Qed.

Lemma inv_resume w w' t t' before after started inp ev :
  step inp t w = Some (w', t', started, ev) ->
  inv (w, before ++ t :: after) ->
  inv (w', before ++ t' :: after ++ started).
Proof.
  intros Hstep. unfold inv; simpl fst; simpl snd.
  rewrite !count_app; simpl count; rewrite !count_app.
  destruct w as [c sp cp ww]. destruct c as [sh wo so sm pc tf cg cr sa sc].
  destruct sm as [sid sup ivl stg sres srej].
  unfold sessionManager; simpl.
  intros (Hd & Hn & Hs & Ho).
  destruct t as [k|k|k|k]; destruct k; destruct inp; simpl in Hstep;
    try discriminate Hstep.
  all: unfold Client.connect_enter, Client.disconnect_enter,
         Client.closePeerConn, Client.connect_finally, Client.connect_wait,
         Client.dial, SessionManager.getSessionMetadata_enter,
         SessionManager.getSessionMetadata_settled,
         SessionManager.getSessionMetadata_bail,
         SessionManager.getSessionMetadata_finally,
         SessionManager.heartbeat, SessionManager.heartbeat_wait,
         SessionManager.heartbeat_launch, SessionManager.doHeartbeat,
         SessionManager.heartbeat_catch, SessionManager.reset,
         SessionManager.supported in Hstep; simpl in Hstep.
  all: break_step Hstep.
  all: inversion Hstep; subst; clear Hstep; simpl in *.
  all: rewrite ?count_heartbeats by reflexivity.
  all: try destruct cg; try destruct stg; simpl in *.
  all: repeat split; try lia; try congruence;
    try (intros; first [apply Hs | apply Ho]; lia); try (intros; lia).
Qed.

Lemma inv_step x ev y : sys_step x ev y -> inv x -> inv y.
Proof.
  destruct 1; eauto using inv_resume, inv_call, inv_reset.
Qed.

Lemma inv_run x evs y : sys_run x evs y -> inv x -> inv y.
Proof.
  induction 1; eauto using inv_step.
Qed.

Lemma reachable_inv x : reachable x -> inv x.
Proof.
  intros (sh & wo & so & ww & evs & Hrun).
  eapply inv_run; [eassumption|].
  apply inv_boot; reflexivity.
Qed.

Lemma run_snoc x evs y ev z :
  sys_run x evs y -> sys_step y ev z -> sys_run x (evs ++ ev) z.
Proof.
  induction 1 as [x|x y z' e es Hs Hr IH]; intros Hz.
  - rewrite <- (app_nil_r ev). simpl. econstructor; [eassumption|constructor].
  - rewrite <- app_assoc. econstructor; [eassumption|]. apply IH, Hz.
Qed.

Lemma reachable_boot serviceHost webrtcOptions sessionOptions windowWorker :
  reachable
    (boot (Client.new serviceHost webrtcOptions sessionOptions) windowWorker,
     []).
Proof.
  exists serviceHost, webrtcOptions, sessionOptions, windowWorker, [].
  constructor.
Defined.

Lemma reachable_step x ev y : reachable x -> sys_step x ev y -> reachable y.
Proof.
  intros (sh & wo & so & ww & evs & Hrun) Hstep.
  exists sh, wo, so, ww, (evs ++ ev). eapply run_snoc; eassumption.
Defined.

(** A suspended call of a reachable system sees the invariant with itself
    singled out. *)
Lemma reachable_split w pool t :
  reachable (w, pool) -> In t pool ->
  exists before after, pool = before ++ t :: after /\ inv (w, before ++ t :: after).
Proof.
  intros Hr Hin. apply reachable_inv in Hr.
  destruct (in_split _ _ Hin) as (before & after & ->). eauto.
Qed.

(** ** Client.connect and Client.disconnect, one step at a time *)

Lemma withClient_same w : withClient (client w) (connectPromises w) w = w.
Proof. destruct w; reflexivity. Qed.

Lemma connect_enter_queued a cr c h p :
  Client.connecting c = Some p ->
  Client.connect_enter a cr c h = (c, h, Client.ConnAwaitConnecting p, []).
Proof.
  intros E. unfold Client.connect_enter, Client.connect_wait. rewrite E.
  reflexivity.
Qed.

Lemma connect_enter_idle a cr c h :
  Client.connecting c = None ->
  exists c' k d,
    Client.connect_enter a cr c h
      = (c', h ++ [VoidPending], k,
         snd (Client.closePeerConn c) ++ [d]) /\
    isDial d = true /\
    dialing (Connect k) = true /\
    Client.connecting c' = Some (length h) /\
    Client.savedAuthEntity c' = Client.orDefault a (Client.savedAuthEntity c) /\
    Client.savedCreds c' = Client.orDefault cr (Client.savedCreds c).
Proof.
  intros E. unfold Client.connect_enter. rewrite E. simpl.
  unfold Client.closePeerConn, Client.dial; simpl.
  destruct (Client.peerConn c); simpl;
    destruct (Client.webrtcOptions c) as [o|]; simpl;
    try destruct (WebRTCOptions.enabled o); simpl;
    eexists _, _, _; repeat split; reflexivity.
Qed.

Lemma connect_waiter_step inp p c h c' h' k' ev :
  Client.connect_step inp (Client.ConnAwaitConnecting p) c h
    = Some (c', h', k', ev) ->
  inp = Resume /\ h !! p = Some VoidFulfilled /\
  c' = c /\ h' = h /\ ev = [] /\ k' = Client.connect_wait c.
Proof.
  destruct inp; simpl; try discriminate.
  destruct (h !! p) as [[]|] eqn:E; try discriminate.
  intros [= <- <- <- <-]. repeat split; auto.
Qed.

Lemma connect_dial_settled inp k c h c' h' k' ev :
  dialing (Connect k) = true ->
  Client.connect_step inp k c h = Some (c', h', k', ev) ->
  Client.connecting c' = None /\
  Client.connectResolve c' = None /\
  h' = callVoidResolve (Client.connectResolve c) h /\
  Client.savedAuthEntity c' = Client.savedAuthEntity c /\
  Client.savedCreds c' = Client.savedCreds c /\
  count isDial ev = 0 /\
  (forall err,
      inp = DialDirectSettled (Threw err) \/ inp = DialWebRTCSettled (Threw err) ->
      k' = Client.ConnDone (Threw err) /\
      Client.transportFactory c' = Client.transportFactory c /\
      Client.peerConn c' = Client.peerConn c) /\
  (forall f, inp = DialDirectSettled (Returned f) ->
      k' = Client.ConnDone (Returned tt) /\
      Client.transportFactory c' = Some f) /\
  (forall conn, inp = DialWebRTCSettled (Returned conn) ->
      k' = Client.ConnDone (Returned tt) /\
      Client.transportFactory c' = Some (WebRTCConnection.transportFactory conn) /\
      Client.peerConn c' = Some (WebRTCConnection.peerConnection conn)).
Proof.
  destruct k; simpl; try discriminate; intros _;
    destruct inp as [| | | |[f|err]|[conn|err]]; simpl; try discriminate;
    intros [= <- <- <- <-]; simpl;
    repeat split; try reflexivity;
    try match goal with
        | H : _ \/ _ |- _ => destruct H as [H|H]; inversion H; subst
        | H : _ = _ |- _ => inversion H; subst
        end; reflexivity.
Qed.

Lemma connect_step_dial inp k c h c' h' k' ev :
  Client.connect_step inp k c h = Some (c', h', k', ev) ->
  count isDial ev <= 1 /\
  (count isDial ev = 1 ->
   (exists a cr, k = Client.ConnCall a cr) /\
   Client.connecting c = None /\
   dialing (Connect k') = true /\
   Client.connecting c' <> None).
Proof.
  destruct k as [a cr|p| | |r].
  - destruct inp; simpl; try discriminate.
    destruct (Client.connecting c) as [p|] eqn:E.
    + rewrite (connect_enter_queued _ _ _ _ _ E).
      intros [= <- <- <- <-]. simpl. split; [lia|discriminate].
    + destruct (connect_enter_idle a cr c h E)
        as (c1 & k1 & d & -> & Hd & Hk & Hc & _).
      intros [= <- <- <- <-]. rewrite count_app. simpl. rewrite Hd.
      assert (count isDial (snd (Client.closePeerConn c)) = 0) as ->.
      { unfold Client.closePeerConn. destruct (Client.peerConn c); reflexivity. }
      split; [lia|]. intros _. rewrite Hc. repeat split; eauto; discriminate.
  - intros H. apply connect_waiter_step in H as (_ & _ & _ & _ & -> & _).
    simpl. split; [lia|discriminate].
  - intros H. apply connect_dial_settled in H as (_ & _ & _ & _ & _ & -> & _);
      [|reflexivity]. split; [lia|discriminate].
  - intros H. apply connect_dial_settled in H as (_ & _ & _ & _ & _ & -> & _);
      [|reflexivity]. split; [lia|discriminate].
  - destruct inp; discriminate.
Qed.

(** Only [connect] dials. *)
Lemma step_dial_is_connect inp t w w' t' started ev :
  step inp t w = Some (w', t', started, ev) ->
  0 < count isDial ev -> exists k, t = Connect k.
Proof.
  destruct t as [k|k|k|k]; [eauto| | |]; intros Hstep Hpos; exfalso;
    destruct w as [c sp cp ww]; destruct c as [sh wo so sm pc tf cg cr sa sc];
    destruct sm as [sid sup ivl stg sres srej];
    destruct k; destruct inp; simpl in Hstep; try discriminate Hstep;
    unfold Client.disconnect_enter, Client.closePeerConn,
      SessionManager.getSessionMetadata_enter,
      SessionManager.getSessionMetadata_settled,
      SessionManager.getSessionMetadata_bail,
      SessionManager.getSessionMetadata_finally,
      SessionManager.heartbeat, SessionManager.heartbeat_wait,
      SessionManager.heartbeat_launch, SessionManager.doHeartbeat,
      SessionManager.reschedule, SessionManager.supported,
      sessionManager in Hstep; simpl in Hstep;
    break_step Hstep; inversion Hstep; subst; simpl in Hpos; lia.
Qed.

Lemma held_le_1 {A} (o : option A) : held o <= 1.
Proof. destruct o; simpl; lia. Qed.

Lemma reachable_dialing_count w pool :
  reachable (w, pool) -> count dialing pool = held (Client.connecting (client w)).
Proof. intros Hr. apply reachable_inv in Hr. apply Hr. Qed.

(** C1, as amended.  In a reachable system, whichever suspended call is
    resumed next: (1) it invokes a dialer at most once, and only if it is a
    [connect] call that found no connect in flight, after which it is the one
    call dialing; (2) a [connect] call made while a connect is in flight
    changes nothing, dials nothing and waits; (3) a waiting call is resumed
    only once the promise it waits for is resolved, changes nothing, and
    either waits again or returns normally, the latter only when no dial is
    in flight; (4) the dialing call is the only one, and when its dial
    settles it clears [connecting], resolves the promise and, on a failure,
    throws that failure to its own caller. *)
Theorem connect_dials_once_waiters_return_normally
  w pool t inp w' t' started ev :
  reachable (w, pool) -> In t pool ->
  step inp t w = Some (w', t', started, ev) ->
  (count isDial ev <= 1 /\
   (count isDial ev = 1 ->
    (exists a cr, t = Connect (Client.ConnCall a cr)) /\
    Client.connecting (client w) = None /\
    count dialing pool = 0 /\
    dialing t' = true /\
    Client.connecting (client w') <> None)) /\
  (forall a cr p,
      t = Connect (Client.ConnCall a cr) ->
      Client.connecting (client w) = Some p ->
      w' = w /\ ev = [] /\ t' = Connect (Client.ConnAwaitConnecting p)) /\
  (forall p,
      t = Connect (Client.ConnAwaitConnecting p) ->
      connectPromises w !! p = Some VoidFulfilled /\ w' = w /\ ev = [] /\
      ((exists q, Client.connecting (client w) = Some q /\
                  t' = Connect (Client.ConnAwaitConnecting q)) \/
       (Client.connecting (client w) = None /\ count dialing pool = 0 /\
        t' = Connect (Client.ConnDone (Returned tt))))) /\
  (dialing t = true ->
   count dialing pool = 1 /\
   Client.connecting (client w') = None /\
   connectPromises w'
     = callVoidResolve (Client.connectResolve (client w)) (connectPromises w) /\
   forall err,
     inp = DialDirectSettled (Threw err) \/ inp = DialWebRTCSettled (Threw err) ->
     t' = Connect (Client.ConnDone (Threw err))).
Proof.
  intros Hr Hin Hstep.
  pose proof (reachable_dialing_count _ _ Hr) as Hcount.
  repeat apply conj.
  - destruct (Nat.eq_dec (count isDial ev) 0) as [Hz|Hnz]; [lia|].
    destruct (step_dial_is_connect _ _ _ _ _ _ _ Hstep) as (k & ->); [lia|].
    cbn [step] in Hstep.
    destruct (Client.connect_step inp k (client w) (connectPromises w))
      as [[[[c h] k'] ev']|] eqn:E; [|discriminate].
    injection Hstep as <- <- <- <-.
    apply connect_step_dial in E. lia.
  - intros H1.
    destruct (step_dial_is_connect _ _ _ _ _ _ _ Hstep) as (k & ->); [lia|].
    cbn [step] in Hstep.
    destruct (Client.connect_step inp k (client w) (connectPromises w))
      as [[[[c h] k'] ev']|] eqn:E; [|discriminate].
    injection Hstep as <- <- <- <-.
    apply connect_step_dial in E as (_ & E). specialize (E H1).
    destruct E as (Hk & Hc & Hd & Hc'). rewrite Hc in Hcount.
    simpl in Hcount. destruct Hk as (a & cr & ->).
    split; [eauto|]. repeat split; assumption.
  - intros a cr p -> Hc. destruct inp; simpl in Hstep; try discriminate.
    rewrite (connect_enter_queued _ _ _ _ _ Hc) in Hstep. simpl in Hstep.
    inversion Hstep; subst. rewrite withClient_same. auto.
  - intros p ->. cbn [step] in Hstep.
    destruct (Client.connect_step inp (Client.ConnAwaitConnecting p)
                (client w) (connectPromises w))
      as [[[[c h] k'] ev']|] eqn:E; [|discriminate].
    injection Hstep as <- <- <- <-.
    apply connect_waiter_step in E as (_ & Hp & -> & -> & -> & ->).
    rewrite withClient_same. repeat split; try assumption.
    unfold Client.connect_wait.
    destruct (Client.connecting (client w)) as [q|] eqn:Hc; [left; eauto|].
    right. repeat split. exact Hcount.
  - intros Hd.
    assert (0 < count dialing pool) by (eapply count_pos_elem; eassumption).
    pose proof (held_le_1 (Client.connecting (client w))).
    destruct t as [k| | |]; try discriminate Hd. cbn [step] in Hstep.
    destruct (Client.connect_step inp k (client w) (connectPromises w))
      as [[[[c h] k'] ev']|] eqn:E; [|discriminate].
    injection Hstep as <- <- <- <-.
    apply (connect_dial_settled _ _ _ _ _ _ _ _ Hd) in E
      as (Hc & _ & Hh & _ & _ & _ & Herr & _).
    repeat split; [lia|exact Hc|exact Hh|].
    intros err Hi. destruct (Herr err Hi) as (-> & _). reflexivity.
Qed.

(** ** Building concrete runs *)

Lemma run_cons_eq x y z ev evs all :
  sys_step x ev y -> sys_run y evs z -> all = ev ++ evs -> sys_run x all z.
Proof. intros Hs Hr ->. econstructor; eassumption. Qed.

Ltac run_call cl :=
  eapply run_cons_eq; [eapply sys_call with (c := cl)| |]; simpl app.
Ltac evaluate_step :=
  match goal with
  | |- ?lhs = _ =>
      let r := eval vm_compute in lhs in
      transitivity r; [vm_compute; reflexivity|reflexivity]
  end.
Tactic Notation "run_resume" uconstr(bf) constr(tk) uconstr(af) constr(ip) :=
  eapply run_cons_eq;
  [eapply sys_resume with (t := tk) (before := bf) (after := af) (inp := ip);
   evaluate_step| |]; simpl app.
Ltac run_reset :=
  eapply run_cons_eq; [apply sys_reset| |];
  match goal with
  | |- sys_run (?w, ?pool) _ _ =>
      let w' := eval vm_compute in w in
      change (w, pool) with (w', pool)
  | _ => idtac
  end; simpl app.
Ltac run_done := first [apply run_nil | reflexivity].

(** C1 as stated fails.  Two calls of [connect]: the second is made while
    the first is dialing.  The dialer is invoked once and fails; the first
    call throws the failure, the second returns normally. *)
Lemma dial_failure_not_observed_by_waiting_connect :
  exists w,
    sys_run (boot (Client.new "robot.local" None None) false, [])
      [DialDirect "robot.local"
         (Client.dialOptions None None (Client.new "robot.local" None None))]
      (w, [Connect (Client.ConnDone (Threw (ThrownError "dial failed")));
           Connect (Client.ConnDone (Returned tt))]) /\
    Client.transportFactory (client w) = None /\
    Client.ConnDone (Returned tt)
      <> Client.ConnDone (Threw (ThrownError "dial failed")).
Proof.
  eexists. split; [|split; [|discriminate]].
  - run_call (CallConnect None None).
    run_resume (@nil Task) (Connect (Client.ConnCall None None)) (@nil Task)
      Resume.
    run_call (CallConnect None None).
    run_resume [Connect Client.ConnAwaitDialDirect]
      (Connect (Client.ConnCall None None)) (@nil Task) Resume.
    run_resume (@nil Task) (Connect Client.ConnAwaitDialDirect)
      [Connect (Client.ConnAwaitConnecting 0)]
      (DialDirectSettled (Threw (ThrownError "dial failed"))).
    run_resume [Connect (Client.ConnDone (Threw (ThrownError "dial failed")))]
      (Connect (Client.ConnAwaitConnecting 0)) (@nil Task) Resume.
    all: run_done.
  - reflexivity.
Qed.

Lemma reachable_one_call serviceHost webrtcOptions sessionOptions windowWorker c :
  reachable
    (boot (Client.new serviceHost webrtcOptions sessionOptions) windowWorker,
     [called c]).
Proof.
  eapply reachable_step; [apply reachable_boot|].
  apply (sys_call _ [] c).
Defined.

(** The theorem at the first [connect] call of a fresh client: it dials. *)
Lemma connect_dials_once_witness :
  let w := boot (Client.new "robot.local" None None) false in
  let t := Connect (Client.ConnCall None None) in
  reachable (w, [t]) /\ In t [t] /\
  exists w' t' ev,
    step Resume t w = Some (w', t', [], ev) /\
    count isDial ev = 1 /\
    count dialing [t] = 0 /\ dialing t' = true.
Proof.
  cbv zeta.
  pose proof (reachable_one_call "robot.local" None None false
                (CallConnect None None)) as Hr.
  split; [exact Hr|]. split; [left; reflexivity|].
  eexists _, _, _. split; [reflexivity|]. split; [reflexivity|].
  pose proof (connect_dials_once_waiters_return_normally
                _ _ _ Resume _ _ _ _ Hr (or_introl eq_refl) eq_refl)
    as ((_ & Hdial) & _).
  destruct (Hdial eq_refl) as (_ & _ & H0 & Hd & _).
  split; [exact H0|exact Hd].
Defined.

(** C10.  A [connect] call made while another connect is in flight, whatever
    its arguments: it changes nothing (so the saved identity and credentials
    stay those of the earlier attempt), does nothing to the outside (so no
    dial), and waits; and every later resumption of a waiting call again
    changes nothing and does nothing, until it returns. *)
Theorem queued_connect_never_uses_its_arguments w a cr p :
  Client.connecting (client w) = Some p ->
  step Resume (Connect (Client.ConnCall a cr)) w
    = Some (w, Connect (Client.ConnAwaitConnecting p), [], []) /\
  forall w1 q inp w1' t' started ev,
    step inp (Connect (Client.ConnAwaitConnecting q)) w1
      = Some (w1', t', started, ev) ->
    w1' = w1 /\ ev = [] /\ started = [] /\
    (t' = Connect (Client.ConnDone (Returned tt)) \/
     exists q', t' = Connect (Client.ConnAwaitConnecting q')).
Proof.
  intros Hc. split.
  - cbn [step Client.connect_step].
    rewrite (connect_enter_queued _ _ _ _ _ Hc). rewrite withClient_same.
    reflexivity.
  - intros w1 q inp w1' t' started ev Hstep. cbn [step] in Hstep.
    destruct (Client.connect_step inp (Client.ConnAwaitConnecting q)
                (client w1) (connectPromises w1))
      as [[[[c h] k'] ev']|] eqn:E; [|discriminate].
    injection Hstep as <- <- <- <-.
    apply connect_waiter_step in E as (_ & _ & -> & -> & -> & ->).
    rewrite withClient_same. repeat split.
    unfold Client.connect_wait. destruct (Client.connecting (client w1)); eauto.
Qed.

(** The theorem at a second call, made as "bob" while "alice" is dialing. *)
Lemma queued_connect_witness :
  Client.connecting (client dialingAsAlice) = Some 0 /\
  Client.savedAuthEntity (client dialingAsAlice) = Some "alice" /\
  step Resume
    (Connect (Client.ConnCall (Some "bob")
                (Some {| type := "api-key"; payload := "secret" |})))
    dialingAsAlice
  = Some (dialingAsAlice, Connect (Client.ConnAwaitConnecting 0), [], []).
Proof.
  split; [reflexivity|]. split; [reflexivity|].
  exact (proj1 (queued_connect_never_uses_its_arguments dialingAsAlice
                  (Some "bob")
                  (Some {| type := "api-key"; payload := "secret" |})
                  0 eq_refl)).
Defined.

Lemma set_peerConn_same c :
  Client.peerConn c = None -> Client.set_peerConn None c = c.
Proof. destruct c; simpl; intros ->; reflexivity. Qed.

Lemma disconnect_enter_spec c :
  Client.disconnect_enter c =
  match Client.connecting c with
  | Some p => (c, Client.DiscAwaitConnecting p, [])
  | None =>
      (Client.set_sessionManager
         (SessionManager.reset (Client.sessionManager c))
         (Client.set_peerConn None c),
       Client.DiscDone,
       match Client.peerConn c with Some pc => [PeerClose pc] | None => [] end)
  end.
Proof.
  unfold Client.disconnect_enter, Client.closePeerConn.
  destruct (Client.connecting c); [reflexivity|].
  destruct (Client.peerConn c) eqn:E; [reflexivity|].
  rewrite (set_peerConn_same _ E). reflexivity.
Qed.

(** ** Client.createServiceClient and Client.host *)

(** C2 as stated fails.  A client built with no session options, on which
    [connect] was never called, has no transport factory; yet [host] returns
    the service host and [createServiceClient] returns a client. *)
Lemma host_and_service_client_before_connect :
  let c := Client.new "robot.local" None None in
  Client.transportFactory c = None /\
  Client.host c = Returned "robot.local" /\
  Client.createServiceClient pair c
    = Returned ("robot.local", Client.SessionFactory) /\
  Client.host c <> Threw Client.notConnectedYetStr.
Proof. cbv zeta. repeat split. discriminate. Qed.

(** C2, as amended.  With sessions disabled by configuration and no
    transport factory, [host] and [createServiceClient] throw "not connected
    yet".  With sessions not disabled they never throw: the client is bound
    to the factory of the session manager, whether or not a transport factory
    exists.  Whenever a transport factory exists, [host] returns the service
    host.  Without one, it is the factory given to the session manager at
    construction that throws "not connected yet", when it is asked for a
    transport. *)
Theorem not_connected_guard_depends_on_sessions
  (c : Client.t) (T Opts : Type)
  (SC : string -> Client.ClientTransportFactory -> T) (opts : Opts) :
  (Client.sessionsDisabled c = true ->
   Client.transportFactory c = None ->
   Client.host c = Threw "not connected yet" /\
   Client.createServiceClient SC c = Threw "not connected yet") /\
  (Client.sessionsDisabled c = false ->
   Client.host c = Returned (Client.serviceHost c) /\
   Client.createServiceClient SC c
     = Returned (SC (Client.serviceHost c) Client.SessionFactory)) /\
  (forall f,
      Client.transportFactory c = Some f ->
      Client.host c = Returned (Client.serviceHost c) /\
      Client.createServiceClient SC c
        = Returned (SC (Client.serviceHost c)
                      (if Client.sessionsDisabled c
                       then Client.RawFactory f
                       else Client.SessionFactory))) /\
  (Client.transportFactory c = None ->
   Client.innerTransportFactory c opts = Threw "not connected yet").
Proof.
  unfold Client.host, Client.createServiceClient, Client.clientTransportFactory,
    Client.innerTransportFactory.
  split; [intros Hd Hf; rewrite Hd, Hf; split; reflexivity|].
  split; [intros Hd; rewrite Hd; split; reflexivity|].
  split; [|intros Hf; rewrite Hf; reflexivity].
  intros f Hf. rewrite Hf.
  destruct (Client.sessionsDisabled c); split; reflexivity.
Qed.

Example sessions_disabled_not_connected :
  let c := Client.new "robot.local" None
             (Some {| SessionOptions.disabled := true |}) in
  Client.host c = Threw "not connected yet" /\
  Client.createServiceClient pair c = Threw "not connected yet".
Proof. split; reflexivity. Qed.

(** ** SessionManager.reset and the next negotiation *)

Lemma startSessionReq_resume s :
  SessionManager.startSessionReq s
    = {| resume := SessionManager.currentSessionID s |}.
Proof.
  unfold SessionManager.startSessionReq, newStartSessionRequest.
  destruct (String.eqb_spec (SessionManager.currentSessionID s) "") as [->|_];
    reflexivity.
Qed.

Lemma getSessionMetadata_enter_negotiates s h :
  SessionManager.starting s = None ->
  SessionManager.sessionsSupported s = None ->
  SessionManager.getSessionMetadata_enter s h
  = ({| SessionManager.currentSessionID := SessionManager.currentSessionID s;
        SessionManager.sessionsSupported := None;
        SessionManager.heartbeatIntervalMs := SessionManager.heartbeatIntervalMs s;
        SessionManager.starting := Some (length h);
        SessionManager.startResolve := Some (length h);
        SessionManager.startReject := Some (length h) |},
     h ++ [Pending], SessionManager.GsmAwaitStartSession,
     [StartSession {| resume := SessionManager.currentSessionID s |}]).
Proof.
  intros Hs Hp. unfold SessionManager.getSessionMetadata_enter.
  rewrite Hs, Hp. simpl. rewrite startSessionReq_resume. reflexivity.
Qed.

Lemma reachable_negotiating_starting w pool t :
  reachable (w, pool) -> In t pool ->
  awaitingStartSession t = true \/ awaitingOwnStarting t = true ->
  SessionManager.starting (sessionManager w) <> None.
Proof.
  intros Hr Hin Ht. apply reachable_inv in Hr.
  destruct Hr as (_ & Hn & _). simpl in Hn.
  destruct (SessionManager.starting (sessionManager w)); [discriminate|].
  simpl in Hn.
  destruct Ht as [Ht|Ht];
    pose proof (count_pos_elem _ _ _ Hin Ht); lia.
Qed.

(** C8.  While [starting] is set, and so while some call of a reachable
    system is negotiating, [reset] returns the manager as it is, and the
    negotiation ends as it would have.  Otherwise [reset] clears
    [sessionsSupported] and nothing else; the session id stays, and the next
    [getSessionMetadata] call sends [startSession] with [resume] equal to
    that id. *)
Theorem reset_suppressed_in_flight_else_keeps_id
  (s : SessionManager.t) (h : list PromiseState) (windowWorker : bool) :
  (SessionManager.starting s <> None ->
   SessionManager.reset s = s /\
   forall r,
     SessionManager.getSessionMetadata_settled windowWorker r
       (SessionManager.reset s) h
     = SessionManager.getSessionMetadata_settled windowWorker r s h) /\
  (forall w pool t,
      reachable (w, pool) -> In t pool ->
      awaitingStartSession t = true \/ awaitingOwnStarting t = true ->
      SessionManager.reset (sessionManager w) = sessionManager w) /\
  (SessionManager.starting s = None ->
   SessionManager.reset s = SessionManager.set_sessionsSupported None s /\
   SessionManager.sessionsSupported (SessionManager.reset s) = None /\
   SessionManager.currentSessionID (SessionManager.reset s)
     = SessionManager.currentSessionID s /\
   SessionManager.heartbeatIntervalMs (SessionManager.reset s)
     = SessionManager.heartbeatIntervalMs s /\
   exists s',
     SessionManager.getSessionMetadata_step windowWorker Resume
       SessionManager.GsmCall (SessionManager.reset s) h
     = Some (s', h ++ [Pending], SessionManager.GsmAwaitStartSession, [],
             [StartSession
                {| resume := SessionManager.currentSessionID s |}])).
Proof.
  assert (forall s0, SessionManager.starting s0 <> None ->
                     SessionManager.reset s0 = s0) as Hkeep.
  { intros s0 H0. unfold SessionManager.reset.
    destruct (SessionManager.starting s0); [reflexivity|congruence]. }
  split; [|split].
  - intros Hs. rewrite (Hkeep s Hs). split; reflexivity.
  - intros w pool t Hr Hin Ht. apply Hkeep.
    eapply reachable_negotiating_starting; eassumption.
  - intros Hs. unfold SessionManager.reset. rewrite Hs.
    repeat split. eexists. cbn [SessionManager.getSessionMetadata_step].
    rewrite getSessionMetadata_enter_negotiates by (simpl; auto).
    reflexivity.
Qed.

(** Session resume.  A session "abc" is held; [reset] clears the support
    flag, and the next call asks to resume "abc".  The same after a new
    [connect], which calls [reset] before it dials. *)
Example reset_then_resume_abc :
  SessionManager.currentSessionID (sessionManager sessionAbc) = "abc" /\
  SessionManager.sessionsSupported
    (SessionManager.reset (sessionManager sessionAbc)) = None /\
  (exists s',
      SessionManager.getSessionMetadata_step false Resume SessionManager.GsmCall
        (SessionManager.reset (sessionManager sessionAbc)) [Fulfilled]
      = Some (s', [Fulfilled; Pending], SessionManager.GsmAwaitStartSession, [],
              [StartSession {| resume := "abc" |}])) /\
  (exists w w',
      step Resume (Connect (Client.ConnCall None None)) sessionAbc
      = Some (w, Connect Client.ConnAwaitDialDirect, [],
              [DialDirect "robot.local"
                 (Client.dialOptions None None (client sessionAbc))]) /\
      step Resume (GetSessionMetadata SessionManager.GsmCall) w
      = Some (w', GetSessionMetadata SessionManager.GsmAwaitStartSession, [],
              [StartSession {| resume := "abc" |}])).
Proof.
  split; [reflexivity|]. split; [reflexivity|].
  split; [eexists; reflexivity|].
  eexists _, _. split; reflexivity.
Qed.

(** While a negotiation is in flight, [reset] does nothing. *)
Example reset_in_flight_is_suppressed :
  exists w,
    step Resume (GetSessionMetadata SessionManager.GsmCall) fresh
    = Some (w, GetSessionMetadata SessionManager.GsmAwaitStartSession, [],
            [StartSession {| resume := "" |}]) /\
    SessionManager.starting (sessionManager w) = Some 0 /\
    SessionManager.reset (sessionManager w) = sessionManager w.
Proof. eexists. repeat split. Qed.

(** ** The heartbeat loop *)



(** The loop as it is written.  The check of support and id is made when
    [heartbeat] is called: without support, or with an empty id, no loop is
    started; otherwise the loop starts (after waiting for [starting] to be
    cleared) by sending a first heartbeat.  A loop that has started does not
    check again: whatever the manager records, a tick sends one heartbeat
    with the current id, and the answer, good or bad, arms the timer again
    with the stored interval. *)
Lemma heartbeat_checks_support_only_when_started
  (windowWorker worker : bool) (s : SessionManager.t) (h : list PromiseState) :
  (SessionManager.supported s = false \/ SessionManager.currentSessionID s = "" ->
   SessionManager.heartbeat windowWorker s
   = (SessionManager.HbDone (Returned tt), [])) /\
  (SessionManager.supported s = true ->
   SessionManager.currentSessionID s <> "" ->
   SessionManager.heartbeat windowWorker s
   = match SessionManager.starting s with
     | Some p => (SessionManager.HbAwaitStarting p, [])
     | None =>
         (SessionManager.HbAwaitSend windowWorker,
          (if windowWorker then [NewWorker] else []) ++
          [SendSessionHeartbeat
             {| heartbeat_id := SessionManager.currentSessionID s |}])
     end) /\
  SessionManager.heartbeat_step windowWorker TimerFired
    (SessionManager.HbSleeping worker) s h
  = Some (s, SessionManager.HbAwaitSend worker,
          [SendSessionHeartbeat
             {| heartbeat_id := SessionManager.currentSessionID s |}]) /\
  (forall r, exists s',
      SessionManager.heartbeat_step windowWorker (HeartbeatSettled r)
        (SessionManager.HbAwaitSend worker) s h
      = Some (s', SessionManager.HbSleeping worker,
              [if worker
               then WorkerPostMessage (SessionManager.heartbeatIntervalMs s)
               else SetTimeout (SessionManager.heartbeatIntervalMs s)]) /\
      SessionManager.currentSessionID s' = SessionManager.currentSessionID s).
Proof.
  split; [|split; [|split]].
  - unfold SessionManager.heartbeat. intros [->| ->]; [reflexivity|].
    rewrite orb_true_r. reflexivity.
  - intros Hs Hid. unfold SessionManager.heartbeat. rewrite Hs.
    destruct (String.eqb_spec (SessionManager.currentSessionID s) "");
      [contradiction|]. simpl.
    unfold SessionManager.heartbeat_wait, SessionManager.heartbeat_launch.
    destruct (SessionManager.starting s); [reflexivity|].
    simpl. destruct windowWorker; reflexivity.
  - reflexivity.
  - intros r. cbn [SessionManager.heartbeat_step].
    unfold SessionManager.reschedule.
    destruct r as [[]|err]; [eexists; split; reflexivity|].
    exists (SessionManager.heartbeat_catch err s).
    unfold SessionManager.heartbeat_catch, SessionManager.reset.
    destruct (truthy err), (isConnectionClosed err),
      (SessionManager.starting s); split; reflexivity.
Qed.

(** ** Negotiation *)

(** C3 at its failing inputs.  On a fresh client, a success answer without
    heartbeat window, and a failure other than "unimplemented", both end the
    call that started the negotiation with an empty metadata, returned
    normally; the error goes to the [starting] promise only. *)
Theorem negotiation_failure_returns_empty_metadata :
  (exists w,
      run [Resume; StartSessionSettled (Returned noWindowResponse)]
        (GetSessionMetadata SessionManager.GsmCall) fresh []
      = Some (w, GetSessionMetadata (SessionManager.GsmDone (Returned ∅)), [],
              [StartSession {| resume := "" |}]) /\
      startPromises w
      = [Rejected
           {| message := "expected heartbeat window in response to start session";
              code := Internal |}] /\
      SessionManager.sessionsSupported (sessionManager w) = None) /\
  (exists w,
      run [Resume; StartSessionSettled (Threw unavailable)]
        (GetSessionMetadata SessionManager.GsmCall) fresh []
      = Some (w, GetSessionMetadata (SessionManager.GsmDone (Returned ∅)), [],
              [StartSession {| resume := "" |}]) /\
      startPromises w = [Rejected unavailable] /\
      SessionManager.sessionsSupported (sessionManager w) = None).
Proof.
  split; eexists; (split; [reflexivity|split; reflexivity]).
Qed.

(** The same, from any state of the manager. *)
Lemma negotiation_failure_always_returns_empty windowWorker r s h :
  match r with
  | Threw err => code err <> Unimplemented
  | Returned resp => heartbeatWindow resp = None
  end ->
  exists s' h',
    SessionManager.getSessionMetadata_step windowWorker
      (StartSessionSettled r) SessionManager.GsmAwaitStartSession s h
    = Some (s', h', SessionManager.GsmDone (Returned ∅), [], []) /\
    SessionManager.sessionsSupported s' = SessionManager.sessionsSupported s /\
    SessionManager.starting s' = None.
Proof.
  cbn [SessionManager.getSessionMetadata_step].
  unfold SessionManager.getSessionMetadata_settled,
    SessionManager.getSessionMetadata_bail,
    SessionManager.getSessionMetadata_finally.
  destruct r as [resp|err]; intros Hr.
  - rewrite Hr. eexists _, _. repeat split.
  - destruct (code err); try congruence; eexists _, _; repeat split.
Qed.

Lemma withSessionManager_same w :
  withSessionManager (sessionManager w) (startPromises w) w = w.
Proof. destruct w as [[] ? ? ?]; reflexivity. Qed.

Lemma reachable_unsupported_idle w pool :
  reachable (w, pool) ->
  SessionManager.sessionsSupported (sessionManager w) = Some false ->
  SessionManager.starting (sessionManager w) = None.
Proof.
  intros Hr Hu. apply reachable_inv in Hr.
  destruct Hr as (_ & Hn & Hs & Ho). simpl in *.
  destruct (SessionManager.starting (sessionManager w)); [|reflexivity].
  simpl in Hn.
  destruct (Nat.eq_dec (count awaitingStartSession pool) 0).
  - rewrite Ho in Hu by lia. discriminate.
  - rewrite Hs in Hu by lia. discriminate.
Qed.

Lemma unsupported_step w before t after inp w' t' started ev :
  inv (w, before ++ t :: after) ->
  SessionManager.sessionsSupported (sessionManager w) = Some false ->
  step inp t w = Some (w', t', started, ev) ->
  count isStartSession ev = 0 /\
  (SessionManager.sessionsSupported (sessionManager w') = Some false \/
   SessionManager.sessionsSupported (sessionManager w') = None /\
   sessionManager w' = SessionManager.reset (sessionManager w)).
Proof.
  unfold inv; simpl fst; simpl snd.
  rewrite !count_app; simpl count.
  destruct w as [c sp cp ww]. destruct c as [sh wo so sm pc tf cg cr sa sc].
  destruct sm as [sid sup ivl stg sres srej].
  unfold sessionManager; simpl.
  intros (Hd & Hn & Hs & Ho) -> Hstep.
  destruct t as [k|k|k|k]; destruct k; destruct inp; simpl in Hstep;
    try discriminate Hstep.
  all: try (assert (Some false = None) by (apply Hs; simpl; lia); discriminate).
  all: try (assert (Some false = Some true) by (apply Ho; simpl; lia);
            discriminate).
  all: unfold Client.connect_enter, Client.disconnect_enter,
         Client.closePeerConn, Client.connect_finally, Client.connect_wait,
         Client.dial, SessionManager.getSessionMetadata_enter,
         SessionManager.heartbeat_wait,
         SessionManager.heartbeat_launch, SessionManager.doHeartbeat,
         SessionManager.heartbeat_catch, SessionManager.reset,
         SessionManager.reschedule in Hstep; simpl in Hstep.
  all: break_step Hstep.
  all: inversion Hstep; subst; clear Hstep; simpl in *.
  all: try (split; [reflexivity|]); auto.
  all: simpl in Hn; lia.
Qed.

(** C6.  An "unimplemented" answer to [startSession] records support as
    unsupported and clears the negotiation.  From then on, in a reachable
    system: no negotiation is in flight; a new [getSessionMetadata] call
    returns an empty metadata at once, changing nothing and sending nothing;
    whichever suspended call is resumed sends no [startSession], and leaves
    support unsupported unless that step has called [reset], which is what
    clears the record. *)
Theorem unsupported_is_sticky_until_reset w pool :
  reachable (w, pool) ->
  SessionManager.sessionsSupported (sessionManager w) = Some false ->
  (forall windowWorker s h err,
      code err = Unimplemented ->
      exists s' h',
        SessionManager.getSessionMetadata_step windowWorker
          (StartSessionSettled (Threw err))
          SessionManager.GsmAwaitStartSession s h
        = Some (s', h', SessionManager.GsmDone (Returned ∅), [],
                [ConsoleError "sessions unsupported; will not try again"]) /\
        SessionManager.sessionsSupported s' = Some false /\
        SessionManager.starting s' = None) /\
  SessionManager.starting (sessionManager w) = None /\
  step Resume (GetSessionMetadata SessionManager.GsmCall) w
  = Some (w, GetSessionMetadata (SessionManager.GsmDone (Returned ∅)), [], []) /\
  (forall t inp w' t' started ev,
      In t pool ->
      step inp t w = Some (w', t', started, ev) ->
      count isStartSession ev = 0 /\
      (SessionManager.sessionsSupported (sessionManager w') = Some false \/
       SessionManager.sessionsSupported (sessionManager w') = None /\
       sessionManager w' = SessionManager.reset (sessionManager w))) /\
  SessionManager.sessionsSupported
    (SessionManager.reset (sessionManager w)) = None.
Proof.
  intros Hr Hu.
  pose proof (reachable_unsupported_idle _ _ Hr Hu) as Hidle.
  split; [|split; [exact Hidle|split; [|split]]].
  - intros ww s h err Hcode.
    cbn [SessionManager.getSessionMetadata_step].
    unfold SessionManager.getSessionMetadata_settled,
      SessionManager.getSessionMetadata_bail,
      SessionManager.getSessionMetadata_finally.
    rewrite Hcode. eexists _, _. repeat split.
  - cbn [step SessionManager.getSessionMetadata_step].
    unfold SessionManager.getSessionMetadata_enter,
      SessionManager.getSessionMetadataInner, SessionManager.supported.
    rewrite Hidle, Hu. simpl. rewrite withSessionManager_same. reflexivity.
  - intros t inp w' t' started ev Hin Hstep.
    destruct (reachable_split _ _ _ Hr Hin) as (before & after & -> & Hinv).
    eapply unsupported_step; eassumption.
  - unfold SessionManager.reset. rewrite Hidle. reflexivity.
Qed.

(** The fresh client after an "unimplemented" answer is reachable. *)
Lemma unsupported_reachable :
  reachable
    (unsupportedWorld,
     [GetSessionMetadata (SessionManager.GsmDone (Returned ∅))]).
Proof.
  exists "robot.local", None, None, false. eexists.
  run_call CallGetSessionMetadata.
  run_resume (@nil Task) (GetSessionMetadata SessionManager.GsmCall)
    (@nil Task) Resume.
  run_resume (@nil Task)
    (GetSessionMetadata SessionManager.GsmAwaitStartSession) (@nil Task)
    (StartSessionSettled (Threw unimplemented)).
  all: run_done.
Defined.

(** The theorem at the fresh client after an "unimplemented" answer. *)
Lemma unsupported_is_sticky_witness :
  SessionManager.sessionsSupported (sessionManager unsupportedWorld)
  = Some false /\
  step Resume (GetSessionMetadata SessionManager.GsmCall) unsupportedWorld
  = Some (unsupportedWorld,
          GetSessionMetadata (SessionManager.GsmDone (Returned ∅)), [], []).
Proof.
  split; [reflexivity|].
  exact (proj1 (proj2 (proj2
           (unsupported_is_sticky_until_reset unsupportedWorld _
              unsupported_reachable eq_refl)))).
Defined.

Lemma heartbeatInterval_throws (d : Duration) :
  SessionManager.heartbeatInterval d = Threw JS.mixedTypes.
Proof. reflexivity. Qed.

(** C7 at its input.  On a freshly built client, whatever its
    configuration: the first [getSessionMetadata] call sends [startSession]
    with an empty [resume]; on the answer (id "abc", window of 5 s and 0 ns)
    support is recorded as supported and the id is stored; then line 176
    multiplies the window's seconds, a bigint, by the number 1e3, which throws
    a TypeError.  No interval is stored, no heartbeat loop is started and
    nothing is sent; the [finally] block clears the negotiation and the call
    rejects with the TypeError.  The session stays recorded: the next call
    returns at once, and what it returns maps "viam-sid", not "session-id",
    to "abc". *)
Theorem first_negotiation_rejects_with_a_type_error
  serviceHost webrtcOptions sessionOptions windowWorker :
  exists w1 w2,
    step Resume (GetSessionMetadata SessionManager.GsmCall)
      (boot (Client.new serviceHost webrtcOptions sessionOptions) windowWorker)
    = Some (w1, GetSessionMetadata SessionManager.GsmAwaitStartSession, [],
            [StartSession {| resume := "" |}]) /\
    SessionManager.heartbeatInterval {| seconds := 5; nanos := 0 |}
    = Threw (JS.TypeError
               "Cannot mix BigInt and other types, use explicit conversions") /\
    step (StartSessionSettled (Returned abcResponse))
      (GetSessionMetadata SessionManager.GsmAwaitStartSession) w1
    = Some (w2,
            GetSessionMetadata
              (SessionManager.GsmDone
                 (Threw (SessionManager.Runtime
                           (JS.TypeError
                              "Cannot mix BigInt and other types, use explicit conversions")))),
            [], []) /\
    sessionManager w2
    = {| SessionManager.currentSessionID := "abc";
         SessionManager.sessionsSupported := Some true;
         SessionManager.heartbeatIntervalMs := None;
         SessionManager.starting := None;
         SessionManager.startResolve := None;
         SessionManager.startReject := None |} /\
    startPromises w2 = [Fulfilled] /\
    (forall inp,
        step inp
          (GetSessionMetadata
             (SessionManager.GsmDone
                (Threw (SessionManager.Runtime JS.mixedTypes)))) w2
        = None) /\
    step Resume (GetSessionMetadata SessionManager.GsmCall) w2
    = Some (w2,
            GetSessionMetadata
              (SessionManager.GsmDone (Returned (<["viam-sid" := "abc"]> ∅))),
            [], []) /\
    (<["viam-sid" := "abc"]> ∅ : Metadata) !! "session-id" = None.
Proof.
  eexists _, _.
  split; [reflexivity|]. split; [reflexivity|]. split; [reflexivity|].
  split; [reflexivity|]. split; [reflexivity|].
  split; [intros inp; destruct inp; reflexivity|].
  split; [reflexivity|]. vm_compute. reflexivity.
Qed.

(** The same for every window and from every state of the manager: an
    answer that carries a heartbeat window records the session, stores no
    interval, starts no loop, and ends the call with the TypeError. *)
Lemma session_answer_throws windowWorker resp d s h :
  heartbeatWindow resp = Some d ->
  SessionManager.getSessionMetadata_step windowWorker
    (StartSessionSettled (Returned resp)) SessionManager.GsmAwaitStartSession
    s h
  = Some ({| SessionManager.currentSessionID := id resp;
             SessionManager.sessionsSupported := Some true;
             SessionManager.heartbeatIntervalMs :=
               SessionManager.heartbeatIntervalMs s;
             SessionManager.starting := None;
             SessionManager.startResolve := None;
             SessionManager.startReject := None |},
          callResolve (SessionManager.startResolve s) h,
          SessionManager.GsmDone
            (Threw (SessionManager.Runtime JS.mixedTypes)),
          [], []).
Proof.
  intros Hw. cbn [SessionManager.getSessionMetadata_step].
  unfold SessionManager.getSessionMetadata_settled. rewrite Hw.
  reflexivity.
Qed.

(** * Further properties *)

Ltac by_evaluation := vm_compute; reflexivity.

(** ** Settled promises stay as they are *)

Lemma keeps_refl h : keeps h h.
Proof. intros q st H _. exact H. Qed.

Lemma keeps_trans h1 h2 h3 : keeps h1 h2 -> keeps h2 h3 -> keeps h1 h3.
Proof. intros H12 H23 q st H Hst. apply H23; [apply H12|]; assumption. Qed.

Lemma keeps_app h l : keeps h (h ++ l).
Proof. intros q st H _. apply lookup_app_l_Some, H. Qed.

Lemma keeps_settle p st h : keeps h (settle p st h).
Proof.
  intros q st' H Hst'. unfold settle.
  destruct (h !! p) as [[]|] eqn:E; try exact H.
  rewrite list_lookup_insert_ne; [exact H|].
  intros ->. rewrite E in H. congruence.
Qed.

Lemma keeps_callResolve f h : keeps h (callResolve f h).
Proof. destruct f; simpl; [apply keeps_settle|apply keeps_refl]. Qed.

Lemma keeps_callReject f e h : keeps h (callReject f e h).
Proof. destruct f; simpl; [apply keeps_settle|apply keeps_refl]. Qed.

Lemma keepsVoid_refl h : keepsVoid h h.
Proof. intros q H. exact H. Qed.

Lemma keepsVoid_app h l : keepsVoid h (h ++ l).
Proof. intros q H. apply lookup_app_l_Some, H. Qed.

Lemma keepsVoid_callVoidResolve f h : keepsVoid h (callVoidResolve f h).
Proof.
  destruct f as [p|]; simpl; [|apply keepsVoid_refl].
  intros q H. destruct (decide (p = q)) as [->|Hne].
  - apply list_lookup_insert_eq. eapply lookup_lt_Some, H.
  - rewrite list_lookup_insert_ne; assumption.
Qed.

Lemma settle_pending p st h :
  h !! p = Some Pending -> settle p st h !! p = Some st.
Proof.
  intros H. unfold settle. rewrite H.
  apply list_lookup_insert_eq. eapply lookup_lt_Some, H.
Qed.

Lemma settle_settled p st h :
  h !! p <> Some Pending -> settle p st h = h.
Proof.
  intros H. unfold settle. destruct (h !! p) as [[]|]; congruence.
Qed.

Lemma lookup_new {A} (h : list A) (a : A) : (h ++ [a]) !! length h = Some a.
Proof. rewrite lookup_app_r by lia. rewrite Nat.sub_diag. reflexivity. Qed.

(** ** What a step leaves alone *)

Ltac open_world w :=
  let c := fresh "c" in
  let sm := fresh "sm" in
  destruct w as [c sp cp ww]; destruct c as [sh wo so sm pc tf cg cr sa sc];
  destruct sm as [sid sup ivl stg sres srej].

Ltac open_step H :=
  match type of H with
  | step ?inp ?t ?w = _ =>
      destruct t as [[]|[]|[]|[]]; destruct inp; simpl in H;
      try discriminate H;
      unfold Client.connect_enter, Client.disconnect_enter,
        Client.closePeerConn, Client.connect_finally, Client.connect_wait,
        Client.dial, SessionManager.getSessionMetadata_enter,
        SessionManager.getSessionMetadata_settled,
        SessionManager.getSessionMetadata_bail,
        SessionManager.getSessionMetadata_finally,
        SessionManager.heartbeat, SessionManager.heartbeat_wait,
        SessionManager.heartbeat_launch, SessionManager.doHeartbeat,
        SessionManager.heartbeat_catch, SessionManager.reset,
        SessionManager.reschedule, SessionManager.supported,
        newPromise, sessionManager in H;
      simpl in H; break_step H;
      inversion H; subst; clear H
  end.

Ltac solve_keeps :=
  repeat match goal with
  | |- keeps ?h ?h => apply keeps_refl
  | |- keeps ?h (settle _ _ ?h') =>
      apply (keeps_trans h h'); [|apply keeps_settle]
  | |- keeps ?h (callResolve _ ?h') =>
      apply (keeps_trans h h'); [|apply keeps_callResolve]
  | |- keeps ?h (callReject _ _ ?h') =>
      apply (keeps_trans h h'); [|apply keeps_callReject]
  | |- keeps ?h (?h' ++ _) =>
      apply (keeps_trans h h'); [|apply keeps_app]
  | |- keepsVoid ?h ?h => apply keepsVoid_refl
  | |- keepsVoid ?h (?h ++ _) => apply keepsVoid_app
  | |- keepsVoid ?h (<[_ := VoidFulfilled]> ?h) =>
      apply (keepsVoid_callVoidResolve (Some _) h)
  | |- keepsVoid ?h (callVoidResolve _ ?h) => apply keepsVoid_callVoidResolve
  end.

Lemma step_frame inp t w w' t' started ev :
  step inp t w = Some (w', t', started, ev) ->
  keeps (startPromises w) (startPromises w') /\
  keepsVoid (connectPromises w) (connectPromises w') /\
  windowWorker w' = windowWorker w /\
  Client.serviceHost (client w') = Client.serviceHost (client w) /\
  Client.webrtcOptions (client w') = Client.webrtcOptions (client w) /\
  Client.sessionOptions (client w') = Client.sessionOptions (client w) /\
  (Client.transportFactory (client w) <> None ->
   Client.transportFactory (client w') <> None) /\
  (SessionManager.heartbeatIntervalMs (sessionManager w) <> None ->
   SessionManager.heartbeatIntervalMs (sessionManager w') <> None).
Proof.
  intros Hstep. open_world w. open_step Hstep; simpl.
  all: repeat split; try solve_keeps; try congruence; auto.
Qed.

(** ** The ties are kept *)

Lemma count_none {A} (f : A -> bool) (l : list A) :
  count f l = 0 -> Forall (fun a => f a = false) l.
Proof.
  induction l as [|a l IH]; simpl; [constructor|].
  intros H. destruct (f a) eqn:E; [lia|]. constructor; [exact E|].
  apply IH. lia.
Qed.

Lemma ownSettled_keeps h h' t : keeps h h' -> ownSettled h t -> ownSettled h' t.
Proof.
  intros Hk. destruct t as [| |[| | |[p|]|]|]; simpl; auto.
Qed.

Lemma loopArmed_frame w w' t :
  windowWorker w' = windowWorker w ->
  (SessionManager.heartbeatIntervalMs (sessionManager w) <> None ->
   SessionManager.heartbeatIntervalMs (sessionManager w') <> None) ->
  loopArmed w t -> loopArmed w' t.
Proof.
  intros Hw Hi. destruct t as [| | |k]; simpl; auto.
  rewrite Hw. intros []. split; auto.
Qed.

Lemma tied_boot c windowWorker :
  Client.connecting c = None ->
  SessionManager.starting (Client.sessionManager c) = None ->
  tied (boot c windowWorker, []).
Proof.
  intros Hc Hs. unfold tied, connectingTied, startingTied, negotiationPending,
    sessionManager; simpl. rewrite Hc, Hs.
  repeat split; try constructor. lia.
Qed.

Lemma tied_call w pool c : tied (w, pool) -> tied (w, pool ++ [called c]).
Proof.
  unfold tied, negotiationPending; simpl.
  intros (Hc & Hs & Hn & Ho & Hl). rewrite count_app, !Forall_app.
  repeat split; auto.
  - intros Hpos. apply Hn. destruct c; simpl in Hpos; lia.
  - constructor; [destruct c; exact I|constructor].
  - constructor; [destruct c; exact I|constructor].
Qed.

Lemma reset_frame s :
  SessionManager.starting (SessionManager.reset s) = SessionManager.starting s /\
  SessionManager.startResolve (SessionManager.reset s)
  = SessionManager.startResolve s /\
  SessionManager.startReject (SessionManager.reset s)
  = SessionManager.startReject s /\
  SessionManager.heartbeatIntervalMs (SessionManager.reset s)
  = SessionManager.heartbeatIntervalMs s /\
  SessionManager.currentSessionID (SessionManager.reset s)
  = SessionManager.currentSessionID s.
Proof.
  unfold SessionManager.reset.
  destruct (SessionManager.starting s) eqn:E; simpl; rewrite ?E; repeat split.
Qed.

Lemma tied_reset w pool :
  tied (w, pool) ->
  tied (withSessionManager (SessionManager.reset (sessionManager w))
          (startPromises w) w, pool).
Proof.
  unfold tied, connectingTied, startingTied, negotiationPending; simpl.
  intros (Hc & Hs & Hn & Ho & Hl).
  destruct (reset_frame (sessionManager w)) as (E1 & E2 & E3 & E4 & _).
  unfold sessionManager in *; simpl. rewrite E1, E2, E3.
  repeat split; auto.
  eapply Forall_impl; [exact Hl|]. intros t.
  apply loopArmed_frame; [reflexivity|].
  unfold sessionManager; simpl. rewrite E4. auto.
Qed.

Lemma tied_resume w w' t t' before after started inp ev :
  step inp t w = Some (w', t', started, ev) ->
  inv (w, before ++ t :: after) ->
  tied (w, before ++ t :: after) ->
  tied (w', before ++ t' :: after ++ started).
Proof.
  intros Hstep Hinv (Hc & Hs & Hn & Ho & Hl).
  pose proof (step_frame _ _ _ _ _ _ _ Hstep)
    as (Hk & _ & Hww & _ & _ & _ & _ & Hi).
  simpl fst in *; simpl snd in *.
  rewrite !Forall_app, !Forall_cons in Ho, Hl.
  destruct Ho as (Hob & Hot & Hoa). destruct Hl as (Hlb & Hlt & Hla).
  assert (Forall (ownSettled (startPromises w')) before /\
          Forall (ownSettled (startPromises w')) after /\
          Forall (loopArmed w') before /\ Forall (loopArmed w') after)
    as (Hob' & Hoa' & Hlb' & Hla').
  { split; [|split; [|split]].
    - eapply Forall_impl; [exact Hob|]. intros u. apply ownSettled_keeps, Hk.
    - eapply Forall_impl; [exact Hoa|]. intros u. apply ownSettled_keeps, Hk.
    - eapply Forall_impl; [exact Hlb|]. intros u.
      apply loopArmed_frame; assumption.
    - eapply Forall_impl; [exact Hla|]. intros u.
      apply loopArmed_frame; assumption. }
  cut (connectingTied w' /\ startingTied w' /\
       negotiationPending (w', before ++ t' :: after ++ started) /\
       ownSettled (startPromises w') t' /\
       Forall (ownSettled (startPromises w')) started /\
       loopArmed w' t' /\ Forall (loopArmed w') started).
  { intros (G1 & G2 & G3 & G4 & G5 & G6 & G7).
    unfold tied. simpl fst; simpl snd.
    rewrite !Forall_app, !Forall_cons, !Forall_app. tauto. }
  clear Hk Hi Hww Hob Hoa Hlb Hla Hob' Hoa' Hlb' Hla'.
  unfold inv, connectingTied, startingTied, negotiationPending in *.
  simpl fst in *; simpl snd in *.
  rewrite !count_app in *; simpl count in *; rewrite ?count_app.
  destruct Hinv as (Hd & Hcnt & Hsup & Hown).
  open_world w. unfold sessionManager in *; simpl in *.
  destruct stg as [ps|], cg as [pg|]; simpl in *.
  all: open_step Hstep; simpl in *.
  all: rewrite ?count_heartbeats by reflexivity.
  all: repeat match goal with
       | H : _ /\ _ |- _ => destruct H
       | H : Some _ = Some _ |- _ => injection H as H; subst
       end.
  all: subst.
  all: repeat (apply conj); try exact I; try reflexivity; try assumption;
         try (constructor; fail); try lia; try (intros; lia).
  all: try apply lookup_new.
  all: try (intros Hp; apply Hn; lia).
  all: try (intros _; eexists; split; [reflexivity|apply lookup_new]).
  all: try (destruct Hn as (p & [= <-] & Hp); [lia|]; apply settle_pending, Hp).
  all: try (repeat constructor; simpl; congruence).
Qed.

Lemma tied_step x ev y : sys_step x ev y -> inv x -> tied x -> tied y.
Proof.
  destruct 1; eauto using tied_resume, tied_call, tied_reset.
Qed.

Lemma tied_run x evs y : sys_run x evs y -> inv x -> tied x -> tied y.
Proof.
  induction 1 as [|x y z ev evs Hs Hr IH]; [auto|].
  intros Hi Ht. apply IH; [eapply inv_step|eapply tied_step]; eassumption.
Qed.

Lemma reachable_tied x : reachable x -> tied x.
Proof.
  intros (sh & wo & so & ww & evs & Hrun).
  eapply tied_run; [exact Hrun|apply inv_boot|apply tied_boot]; reflexivity.
Qed.

Lemma sys_step_frame x ev y :
  sys_step x ev y ->
  keeps (startPromises (fst x)) (startPromises (fst y)) /\
  keepsVoid (connectPromises (fst x)) (connectPromises (fst y)) /\
  Client.serviceHost (client (fst y)) = Client.serviceHost (client (fst x)) /\
  Client.sessionOptions (client (fst y))
  = Client.sessionOptions (client (fst x)) /\
  (Client.transportFactory (client (fst x)) <> None ->
   Client.transportFactory (client (fst y)) <> None).
Proof.
  destruct 1 as [w w' t t' before after started inp ev Hstep|w pool c|w pool];
    simpl.
  - destruct (step_frame _ _ _ _ _ _ _ Hstep)
      as (H1 & H2 & _ & H3 & _ & H4 & H5 & _).
    repeat split; assumption.
  - repeat split; auto using keeps_refl, keepsVoid_refl.
  - repeat split; auto using keeps_refl, keepsVoid_refl.
Qed.

Lemma sys_run_frame x evs y :
  sys_run x evs y ->
  keeps (startPromises (fst x)) (startPromises (fst y)) /\
  keepsVoid (connectPromises (fst x)) (connectPromises (fst y)) /\
  Client.serviceHost (client (fst y)) = Client.serviceHost (client (fst x)) /\
  Client.sessionOptions (client (fst y))
  = Client.sessionOptions (client (fst x)) /\
  (Client.transportFactory (client (fst x)) <> None ->
   Client.transportFactory (client (fst y)) <> None).
Proof.
  induction 1 as [x|x y z ev evs Hs Hr IH].
  - repeat split; auto using keeps_refl, keepsVoid_refl.
  - destruct (sys_step_frame _ _ _ Hs) as (A1 & A2 & A3 & A4 & A5).
    destruct IH as (B1 & B2 & B3 & B4 & B5).
    repeat split.
    + eapply keeps_trans; eassumption.
    + intros q Hq. apply B2, A2, Hq.
    + congruence.
    + congruence.
    + auto.
Qed.

(** A suspended call of a reachable system, with both invariants. *)
Lemma reachable_at w pool t :
  reachable (w, pool) -> In t pool ->
  exists before after,
    pool = before ++ t :: after /\
    inv (w, before ++ t :: after) /\ tied (w, before ++ t :: after).
Proof.
  intros Hr Hin. destruct (in_split _ _ Hin) as (before & after & ->).
  exists before, after. split; [reflexivity|].
  split; [apply reachable_inv|apply reachable_tied]; exact Hr.
Qed.

(** ** No heartbeat loop is started *)

Lemma loopless_boot c windowWorker :
  SessionManager.heartbeatIntervalMs (Client.sessionManager c) = None ->
  loopless (boot c windowWorker, []).
Proof. intros H. repeat split. exact H. Qed.

Lemma loopless_resume w w' t t' before after started inp ev :
  step inp t w = Some (w', t', started, ev) ->
  loopless (w, before ++ t :: after) ->
  loopless (w', before ++ t' :: after ++ started) /\
  started = [] /\ count isBeat ev = 0.
Proof.
  intros Hstep. unfold loopless; simpl fst; simpl snd.
  rewrite !count_app; simpl count; rewrite !count_app.
  open_world w. unfold sessionManager; simpl.
  intros (Hi & Hh & Ho). subst ivl.
  open_step Hstep; simpl in *.
  all: try lia.
  all: try match goal with
           | E : SessionManager.heartbeatInterval _ = Returned _ |- _ =>
               rewrite heartbeatInterval_throws in E; discriminate E
           end.
  all: repeat split; try reflexivity; lia.
Qed.

Lemma loopless_step x ev y :
  sys_step x ev y -> loopless x -> loopless y /\ count isBeat ev = 0.
Proof.
  destruct 1 as [w w' t t' before after started inp ev Hstep|w pool c|w pool];
    intros Hl.
  - destruct (loopless_resume _ _ _ _ _ _ _ _ _ Hstep Hl) as (H & _ & He).
    split; assumption.
  - split; [|reflexivity]. destruct Hl as (Hi & Hh & Ho).
    unfold loopless; simpl in *. rewrite !count_app.
    destruct c; simpl; repeat split; try assumption; lia.
  - split; [|reflexivity]. destruct Hl as (Hi & Hh & Ho).
    unfold loopless; simpl in *. repeat split; try assumption.
    unfold sessionManager; simpl.
    destruct (reset_frame (Client.sessionManager (client w)))
      as (_ & _ & _ & -> & _).
    exact Hi.
Qed.

Lemma loopless_run x evs y :
  sys_run x evs y -> loopless x -> loopless y /\ count isBeat evs = 0.
Proof.
  induction 1 as [x|x y z ev evs Hs Hr IH]; intros Hl; [split; auto|].
  destruct (loopless_step _ _ _ Hs Hl) as (Hy & He).
  destruct (IH Hy) as (Hz & Hes).
  split; [exact Hz|]. rewrite count_app. lia.
Qed.

Lemma reachable_loopless x : reachable x -> loopless x.
Proof.
  intros (sh & wo & so & ww & evs & Hrun).
  eapply loopless_run; [exact Hrun|]. apply loopless_boot. reflexivity.
Qed.

(** C4 at its failing input.  Whatever answer establishes a session (an id
    and a heartbeat window), from whatever state: support and the id are
    recorded, and the call ends with the TypeError of line 176, before
    [heartbeat] is called; it stores no interval, starts no loop and sends
    nothing.  So in every system a freshly built client can get into, no
    interval is stored and no heartbeat loop exists; no step of any call
    starts one, sends a heartbeat, creates a worker or arms a timer; and no
    later run does. *)
Theorem established_session_starts_no_heartbeat_loop w pool :
  reachable (w, pool) ->
  (forall windowWorker resp d s h,
      heartbeatWindow resp = Some d ->
      exists s' h',
        SessionManager.getSessionMetadata_step windowWorker
          (StartSessionSettled (Returned resp))
          SessionManager.GsmAwaitStartSession s h
        = Some (s', h',
                SessionManager.GsmDone
                  (Threw (SessionManager.Runtime JS.mixedTypes)), [], []) /\
        SessionManager.sessionsSupported s' = Some true /\
        SessionManager.currentSessionID s' = id resp /\
        SessionManager.heartbeatIntervalMs s'
        = SessionManager.heartbeatIntervalMs s /\
        SessionManager.starting s' = None) /\
  SessionManager.heartbeatIntervalMs (sessionManager w) = None /\
  count isHeartbeat pool = 0 /\
  (forall t inp w' t' started ev,
      In t pool ->
      step inp t w = Some (w', t', started, ev) ->
      started = [] /\ count isBeat ev = 0) /\
  (forall evs w' pool',
      sys_run (w, pool) evs (w', pool') ->
      count isBeat evs = 0 /\ count isHeartbeat pool' = 0).
Proof.
  intros Hr. pose proof (reachable_loopless _ Hr) as Hl.
  split; [|split; [apply Hl|split; [apply Hl|split]]].
  - intros ww resp d s h Hw.
    rewrite (session_answer_throws ww resp d s h Hw).
    eexists _, _. repeat split.
  - intros t inp w' t' started ev Hin Hstep.
    destruct (in_split _ _ Hin) as (before & after & ->).
    destruct (loopless_resume _ _ _ _ _ _ _ _ _ Hstep Hl) as (_ & H1 & H2).
    split; assumption.
  - intros evs w' pool' Hrun.
    destruct (loopless_run _ _ _ Hrun Hl) as (Hl' & He).
    split; [exact He|apply Hl'].
Qed.

(** ** More on negotiation *)

(** X1.  [startSession] is sent only by a call that finds no negotiation in
    flight and no support recorded, while no other call is negotiating; it
    is sent once, with the stored id as [resume], and that call is then the
    one negotiating. *)
Theorem startSession_sent_only_when_idle w pool t inp w' t' started ev :
  reachable (w, pool) -> In t pool ->
  step inp t w = Some (w', t', started, ev) ->
  count isStartSession ev <= 1 /\
  (count isStartSession ev = 1 ->
   SessionManager.starting (sessionManager w) = None /\
   SessionManager.sessionsSupported (sessionManager w) = None /\
   count awaitingStartSession pool + count awaitingOwnStarting pool = 0 /\
   awaitingStartSession t' = true /\
   SessionManager.starting (sessionManager w') <> None /\
   ev = [StartSession
           {| resume := SessionManager.currentSessionID (sessionManager w) |}]).
Proof.
  intros Hr Hin Hstep.
  apply reachable_inv in Hr. destruct Hr as (_ & Hcnt & _). simpl in Hcnt.
  revert Hcnt. generalize
    (count awaitingStartSession pool + count awaitingOwnStarting pool).
  intros n Hcnt. clear Hin.
  open_world w. unfold sessionManager in *; simpl in *.
  open_step Hstep; simpl in *.
  all: split; [lia|]; try (intros; lia).
  all: intros _; rewrite startSessionReq_resume; simpl.
  all: repeat split; try assumption; discriminate.
Qed.

(** X2.  In a reachable system, a [getSessionMetadata] call ends by throwing
    in two ways only.  It was waiting, at line 128, on a [starting] promise
    that has been rejected: it throws that promise's reason, changing
    nothing.  Or it is the call that negotiates and the answer is a success
    that carries a heartbeat window: it throws the TypeError of line 176,
    with the session recorded and the negotiation cleared.  Either way
    nothing is sent and no loop is started.  The second way is taken by every
    such answer; on any other answer the negotiating call returns. *)
Theorem getSessionMetadata_throws_as_waiter_or_on_a_session_answer
  w pool k inp w' e started ev :
  reachable (w, pool) -> In (GetSessionMetadata k) pool ->
  step inp (GetSessionMetadata k) w
  = Some (w', GetSessionMetadata (SessionManager.GsmDone (Threw e)),
          started, ev) ->
  started = [] /\ ev = [] /\
  ((exists p reason,
       k = SessionManager.GsmAwaitStarting p /\
       e = SessionManager.Reason reason /\
       startPromises w !! p = Some (Rejected reason) /\
       w' = w) \/
   (exists resp d,
       k = SessionManager.GsmAwaitStartSession /\
       inp = StartSessionSettled (Returned resp) /\
       heartbeatWindow resp = Some d /\
       e = SessionManager.Runtime JS.mixedTypes /\
       SessionManager.sessionsSupported (sessionManager w') = Some true /\
       SessionManager.currentSessionID (sessionManager w') = id resp /\
       SessionManager.starting (sessionManager w') = None)) /\
  (forall r,
      exists w2 r2,
        step (StartSessionSettled r)
          (GetSessionMetadata SessionManager.GsmAwaitStartSession) w
        = Some (w2, GetSessionMetadata (SessionManager.GsmDone r2), [],
                match r with
                | Threw err =>
                    match code err with
                    | Unimplemented =>
                        [ConsoleError
                           "sessions unsupported; will not try again"]
                    | _ => []
                    end
                | Returned _ => []
                end) /\
        r2 = match r with
             | Returned resp =>
                 match heartbeatWindow resp with
                 | Some _ => Threw (SessionManager.Runtime JS.mixedTypes)
                 | None => Returned ∅
                 end
             | Threw _ => Returned ∅
             end).
Proof.
  intros Hr Hin Hstep.
  destruct (reachable_at _ _ _ Hr Hin) as (before & after & -> & _ & Ht).
  destruct Ht as (_ & _ & _ & Hown & _). simpl in Hown.
  rewrite Forall_app, Forall_cons in Hown. destruct Hown as (_ & Hown & _).
  clear Hr Hin.
  assert (forall r,
      exists w2 r2,
        step (StartSessionSettled r)
          (GetSessionMetadata SessionManager.GsmAwaitStartSession) w
        = Some (w2, GetSessionMetadata (SessionManager.GsmDone r2), [],
                match r with
                | Threw err =>
                    match code err with
                    | Unimplemented =>
                        [ConsoleError
                           "sessions unsupported; will not try again"]
                    | _ => []
                    end
                | Returned _ => []
                end) /\
        r2 = match r with
             | Returned resp =>
                 match heartbeatWindow resp with
                 | Some _ => Threw (SessionManager.Runtime JS.mixedTypes)
                 | None => Returned ∅
                 end
             | Threw _ => Returned ∅
             end) as Hanswer.
  { intros r. cbn [step SessionManager.getSessionMetadata_step].
    unfold SessionManager.getSessionMetadata_settled,
      SessionManager.getSessionMetadata_bail,
      SessionManager.getSessionMetadata_finally.
    destruct r as [resp|err].
    - destruct (heartbeatWindow resp); simpl; eexists _, _; split; reflexivity.
    - destruct (code err); simpl; eexists _, _; split; reflexivity. }
  split; [|split; [|split; [|exact Hanswer]]]; clear Hanswer.
  all: open_world w; unfold sessionManager in *; simpl in *.
  all: destruct k as [|p| |[p|]|r]; destruct inp; simpl in Hstep;
    try discriminate Hstep;
    unfold SessionManager.getSessionMetadata_enter,
      SessionManager.getSessionMetadata_settled,
      SessionManager.getSessionMetadata_bail,
      SessionManager.getSessionMetadata_finally,
      SessionManager.heartbeat, SessionManager.heartbeat_wait,
      SessionManager.heartbeat_launch, SessionManager.doHeartbeat in Hstep;
    simpl in Hstep;
    try rewrite Hown in Hstep; simpl in Hstep;
    break_step Hstep; inversion Hstep; subst.
  all: try reflexivity.
  all: try (left; eexists _, _; repeat split; eassumption).
  all: right; eexists _, _; repeat split; eassumption.
Qed.

Lemma waiter_throws w p e :
  startPromises w !! p = Some (Rejected e) ->
  step Resume (GetSessionMetadata (SessionManager.GsmAwaitStarting p)) w
  = Some (w,
          GetSessionMetadata
            (SessionManager.GsmDone (Threw (SessionManager.Reason e))),
          [], []).
Proof.
  intros H. simpl. rewrite H. simpl. rewrite withSessionManager_same.
  reflexivity.
Qed.

(** X3.  When the answer to [startSession] arrives in a reachable system,
    the promise held in [starting] is still pending, and the answer settles
    it: rejected with the error if the error is not "unimplemented",
    rejected with an internal error if the answer lacks the heartbeat
    window, fulfilled otherwise.  It stays so in every later state: a call
    that waits on a rejected one throws its reason whenever it is resumed. *)
Theorem negotiation_outcome_reaches_every_waiter
  w pool r w' t' started ev :
  reachable (w, pool) ->
  In (GetSessionMetadata SessionManager.GsmAwaitStartSession) pool ->
  step (StartSessionSettled r)
    (GetSessionMetadata SessionManager.GsmAwaitStartSession) w
  = Some (w', t', started, ev) ->
  exists p,
    SessionManager.starting (sessionManager w) = Some p /\
    startPromises w !! p = Some Pending /\
    (forall inp,
        step inp (GetSessionMetadata (SessionManager.GsmAwaitStarting p)) w
        = None) /\
    startPromises w' !! p
    = Some match r with
           | Threw err =>
               match code err with
               | Unimplemented => Fulfilled
               | _ => Rejected err
               end
           | Returned resp =>
               match heartbeatWindow resp with
               | Some _ => Fulfilled
               | None =>
                   Rejected
                     {| message :=
                          "expected heartbeat window in response to start session";
                        code := Internal |}
               end
           end /\
    forall pool' evs w2 pool2 e,
      sys_run (w', pool') evs (w2, pool2) ->
      startPromises w' !! p = Some (Rejected e) ->
      step Resume (GetSessionMetadata (SessionManager.GsmAwaitStarting p)) w2
      = Some (w2,
              GetSessionMetadata
                (SessionManager.GsmDone (Threw (SessionManager.Reason e))),
              [], []).
Proof.
  intros Hr Hin Hstep.
  destruct (reachable_at _ _ _ Hr Hin) as (before & after & -> & _ & Ht).
  destruct Ht as (_ & Hst & Hneg & _ & _).
  destruct Hneg as (p & Hp & Hpend).
  { simpl. rewrite count_app. simpl. lia. }
  simpl in Hp, Hpend. unfold startingTied in Hst. simpl in Hst.
  rewrite Hp in Hst. destruct Hst as (Hres & Hrej).
  exists p. split; [exact Hp|]. split; [exact Hpend|]. split; [|split].
  - intros inp. destruct inp; simpl; try reflexivity. rewrite Hpend.
    reflexivity.
  - cbn [step SessionManager.getSessionMetadata_step] in Hstep.
    destruct (SessionManager.getSessionMetadata_settled (windowWorker w) r
                (sessionManager w) (startPromises w))
      as [[[[s h] k'] hb] ev'] eqn:E.
    injection Hstep as <- <- <- <-. simpl.
    unfold SessionManager.getSessionMetadata_settled,
      SessionManager.getSessionMetadata_bail,
      SessionManager.getSessionMetadata_finally in E.
    rewrite Hres, Hrej in E.
    assert (forall st, st <> Pending ->
              forall st1 st2,
                settle p st2 (settle p st1 (settle p st (startPromises w)))
                  !! p = Some st) as Hthree.
    { intros st Hne st1 st2.
      pose proof (settle_pending p st _ Hpend) as Hl.
      rewrite (settle_settled p st2); rewrite (settle_settled p st1);
        rewrite ?Hl; congruence. }
    destruct r as [resp|err].
    + destruct (heartbeatWindow resp) as [d|]; simpl in E.
      * injection E as <- <- <- <- <-. simpl.
        apply settle_pending, Hpend.
      * injection E as <- <- <- <- <-. simpl. rewrite ?Hres, ?Hrej. simpl.
        rewrite settle_settled; [apply settle_pending, Hpend|].
        rewrite (settle_pending _ _ _ Hpend). discriminate.
    + destruct (code err); simpl in E; injection E as <- <- <- <- <-;
        simpl; rewrite ?Hres, ?Hrej; simpl; apply Hthree; discriminate.
  - intros pool' evs w2 pool2 e Hrun Hrejd.
    apply waiter_throws.
    destruct (sys_run_frame _ _ _ Hrun) as (Hk & _). simpl in Hk.
    apply Hk; [exact Hrejd|discriminate].
Qed.

(** ** More on connect and disconnect *)

Lemma reachable_dialing_tied w pool t :
  reachable (w, pool) -> In t pool -> dialing t = true ->
  exists p,
    Client.connecting (client w) = Some p /\
    Client.connectResolve (client w) = Some p /\
    connectPromises w !! p = Some VoidPending /\
    Client.peerConn (client w) = None.
Proof.
  intros Hr Hin Hd.
  pose proof (reachable_dialing_count _ _ Hr) as Hcount.
  pose proof (count_pos_elem _ _ _ Hin Hd) as Hpos.
  apply reachable_tied in Hr. destruct Hr as (Hc & _).
  unfold connectingTied in Hc. simpl in Hc.
  destruct (Client.connecting (client w)) as [p|]; simpl in Hcount; [|lia].
  exists p. tauto.
Qed.

(** C5.  In a reachable system [connecting] is set exactly while a dial is
    in flight.  While it is, a [disconnect] call changes nothing, closes
    nothing and waits on that promise, which is pending, so the call cannot
    go on; a call that waited on an earlier promise waits again.  When no
    dial is in flight, the call (and likewise a call that has waited, once
    the promise it waited on is resolved) closes the peer connection if there
    is one, clears it, resets the session manager and is done.  The live
    transport it closes is the peer connection: the transport factory is
    left as it is.  With no peer connection the reset is all it does.  A call
    that waits is resumed by nothing but the resolution of its promise. *)
Theorem disconnect_waits_then_tears_down w pool :
  reachable (w, pool) ->
  (forall q inp w' t' started ev,
      step inp (Disconnect (Client.DiscAwaitConnecting q)) w
      = Some (w', t', started, ev) ->
      inp = Resume /\ connectPromises w !! q = Some VoidFulfilled) /\
  match Client.connecting (client w) with
  | Some p =>
      count dialing pool = 1 /\
      connectPromises w !! p = Some VoidPending /\
      step Resume (Disconnect Client.DiscCall) w
      = Some (w, Disconnect (Client.DiscAwaitConnecting p), [], []) /\
      (forall inp,
          step inp (Disconnect (Client.DiscAwaitConnecting p)) w = None) /\
      (forall q,
          connectPromises w !! q = Some VoidFulfilled ->
          step Resume (Disconnect (Client.DiscAwaitConnecting q)) w
          = Some (w, Disconnect (Client.DiscAwaitConnecting p), [], []))
  | None =>
      let torn :=
        withClient
          (Client.set_sessionManager
             (SessionManager.reset (sessionManager w))
             (Client.set_peerConn None (client w)))
          (connectPromises w) w in
      let closed :=
        match Client.peerConn (client w) with
        | Some pc => [PeerClose pc]
        | None => []
        end in
      count dialing pool = 0 /\
      step Resume (Disconnect Client.DiscCall) w
      = Some (torn, Disconnect Client.DiscDone, [], closed) /\
      (forall q,
          connectPromises w !! q = Some VoidFulfilled ->
          step Resume (Disconnect (Client.DiscAwaitConnecting q)) w
          = Some (torn, Disconnect Client.DiscDone, [], closed)) /\
      Client.peerConn (client torn) = None /\
      sessionManager torn = SessionManager.reset (sessionManager w) /\
      Client.transportFactory (client torn)
      = Client.transportFactory (client w) /\
      startPromises torn = startPromises w /\
      connectPromises torn = connectPromises w /\
      (Client.peerConn (client w) = None ->
       closed = [] /\
       client torn
       = Client.set_sessionManager
           (SessionManager.reset (sessionManager w)) (client w))
  end.
Proof.
  intros Hr.
  pose proof (reachable_dialing_count _ _ Hr) as Hcount.
  pose proof (reachable_tied _ Hr) as (Hc & _).
  unfold connectingTied in Hc. simpl in Hc.
  split.
  - intros q inp w' t' started ev Hstep.
    destruct inp; simpl in Hstep; try discriminate Hstep.
    destruct (connectPromises w !! q) as [[]|]; try discriminate Hstep.
    split; reflexivity.
  - destruct (Client.connecting (client w)) as [p|] eqn:Hcg.
    + destruct Hc as (_ & Hpend & _).
      split; [exact Hcount|]. split; [exact Hpend|].
      assert (Client.disconnect_enter (client w)
              = (client w, Client.DiscAwaitConnecting p, [])) as He.
      { rewrite disconnect_enter_spec, Hcg. reflexivity. }
      split; [|split].
      * simpl. rewrite He. rewrite withClient_same. reflexivity.
      * intros inp. destruct inp; simpl; try reflexivity.
        rewrite Hpend. reflexivity.
      * intros q Hq. simpl. rewrite Hq, He. rewrite withClient_same.
        reflexivity.
    + cbv zeta.
      assert (Client.disconnect_enter (client w)
              = (Client.set_sessionManager
                   (SessionManager.reset (sessionManager w))
                   (Client.set_peerConn None (client w)),
                 Client.DiscDone,
                 match Client.peerConn (client w) with
                 | Some pc => [PeerClose pc]
                 | None => []
                 end)) as He.
      { rewrite disconnect_enter_spec, Hcg. reflexivity. }
      split; [exact Hcount|]. split; [|split].
      * simpl. rewrite He. reflexivity.
      * intros q Hq. simpl. rewrite Hq, He. reflexivity.
      * split; [reflexivity|]. split; [reflexivity|].
        split; [reflexivity|]. split; [reflexivity|].
        split; [reflexivity|].
        intros Hpc. split; [rewrite Hpc; reflexivity|].
        simpl. rewrite (set_peerConn_same _ Hpc). reflexivity.
Qed.

(** X4.  While a dial is in flight in a reachable system, the promise held
    in [connecting] is pending, so no call waiting on it can be resumed.
    When the dial settles, with a result or with a failure, that promise is
    fulfilled and [connecting] is cleared; the promise stays fulfilled in
    every later state, and in every later state a [connect] call and a
    [disconnect] call that wait on it are resumed: the first looks at
    [connecting] again, the second goes on as a new call would. *)
Theorem settled_dial_releases_waiting_calls
  w pool t inp w' t' started ev :
  reachable (w, pool) -> In t pool -> dialing t = true ->
  step inp t w = Some (w', t', started, ev) ->
  exists p,
    Client.connecting (client w) = Some p /\
    connectPromises w !! p = Some VoidPending /\
    (forall inp',
        step inp' (Connect (Client.ConnAwaitConnecting p)) w = None /\
        step inp' (Disconnect (Client.DiscAwaitConnecting p)) w = None) /\
    Client.connecting (client w') = None /\
    connectPromises w' !! p = Some VoidFulfilled /\
    forall pool' evs w2 pool2,
      sys_run (w', pool') evs (w2, pool2) ->
      connectPromises w2 !! p = Some VoidFulfilled /\
      step Resume (Connect (Client.ConnAwaitConnecting p)) w2
      = Some (w2, Connect (Client.connect_wait (client w2)), [], []) /\
      step Resume (Disconnect (Client.DiscAwaitConnecting p)) w2
      = Some (withClient (Client.disconnect_enter (client w2)).1.1
                (connectPromises w2) w2,
              Disconnect (Client.disconnect_enter (client w2)).1.2, [],
              (Client.disconnect_enter (client w2)).2) /\
      step Resume (Disconnect (Client.DiscAwaitConnecting p)) w2
      = step Resume (Disconnect Client.DiscCall) w2.
Proof.
  intros Hr Hin Hd Hstep.
  destruct (reachable_dialing_tied _ _ _ Hr Hin Hd)
    as (p & Hc & Hres & Hpend & _).
  exists p. split; [exact Hc|]. split; [exact Hpend|].
  assert (connectPromises w' !! p = Some VoidFulfilled /\
          Client.connecting (client w') = None) as (Hful & Hc').
  { destruct t as [k| | |]; try discriminate Hd. cbn [step] in Hstep.
    destruct (Client.connect_step inp k (client w) (connectPromises w))
      as [[[[c h] k'] ev']|] eqn:E; [|discriminate].
    injection Hstep as <- <- <- <-.
    apply (connect_dial_settled _ _ _ _ _ _ _ _ Hd) in E
      as (Hcn & _ & -> & _).
    split; [|exact Hcn]. simpl. rewrite Hres. simpl.
    apply list_lookup_insert_eq. eapply lookup_lt_Some, Hpend. }
  split; [|split; [exact Hc'|split; [exact Hful|]]].
  - intros inp'. split; destruct inp'; simpl; try reflexivity;
      rewrite Hpend; reflexivity.
  - intros pool' evs w2 pool2 Hrun.
    destruct (sys_run_frame _ _ _ Hrun) as (_ & Hk & _).
    pose proof (Hk _ Hful) as Hful2. simpl in Hful2.
    split; [exact Hful2|]. split; [|split].
    + simpl. rewrite Hful2. rewrite withClient_same. reflexivity.
    + simpl. rewrite Hful2.
      destruct (Client.disconnect_enter (client w2)) as [[c k] ev'].
      reflexivity.
    + simpl. rewrite Hful2. reflexivity.
Qed.

(** X5.  When a dial settles in a reachable system, no peer connection was
    held while it was in flight.  A direct dial that succeeds installs its
    factory and leaves no peer connection; a WebRTC dial that succeeds
    installs its peer connection and its factory; either way the factory the
    constructor gave the session manager now yields transports of the new
    factory.  A dial that fails leaves the transport factory as it was and
    no peer connection. *)
Theorem dial_outcome_installs_or_keeps_factory
  w pool t inp w' t' started ev :
  reachable (w, pool) -> In t pool -> dialing t = true ->
  step inp t w = Some (w', t', started, ev) ->
  Client.peerConn (client w) = None /\
  (forall f,
      inp = DialDirectSettled (Returned f) ->
      t' = Connect (Client.ConnDone (Returned tt)) /\
      Client.transportFactory (client w') = Some f /\
      Client.peerConn (client w') = None /\
      forall Opts (opts : Opts),
        Client.innerTransportFactory (client w') opts = Returned (f, opts)) /\
  (forall conn,
      inp = DialWebRTCSettled (Returned conn) ->
      t' = Connect (Client.ConnDone (Returned tt)) /\
      Client.transportFactory (client w')
      = Some (WebRTCConnection.transportFactory conn) /\
      Client.peerConn (client w')
      = Some (WebRTCConnection.peerConnection conn) /\
      ev = [SetOnTrack (WebRTCConnection.peerConnection conn)] /\
      forall Opts (opts : Opts),
        Client.innerTransportFactory (client w') opts
        = Returned (WebRTCConnection.transportFactory conn, opts)) /\
  (forall err,
      inp = DialDirectSettled (Threw err) \/ inp = DialWebRTCSettled (Threw err) ->
      t' = Connect (Client.ConnDone (Threw err)) /\
      ev = [] /\
      Client.transportFactory (client w') = Client.transportFactory (client w) /\
      Client.peerConn (client w') = None).
Proof.
  intros Hr Hin Hd Hstep.
  destruct (reachable_dialing_tied _ _ _ Hr Hin Hd) as (p & _ & _ & _ & Hpc).
  split; [exact Hpc|]. clear Hr Hin.
  open_world w. simpl in Hpc. subst pc.
  destruct t as [[]| | |]; try discriminate Hd;
    destruct inp as [| | | |[f|err]|[conn|err]]; simpl in Hstep;
    try discriminate Hstep; inversion Hstep; subst; simpl.
  all: repeat split; intros;
    repeat match goal with
           | H : _ \/ _ |- _ => destruct H
           | H : _ = _ |- _ => inversion H; subst; clear H
           end; reflexivity.
Qed.

(** How a [connect] call that finds no connect in flight dials. *)
Lemma connect_enter_dials a cr c h :
  Client.connecting c = None ->
  exists c1 k1 d opts,
    Client.connect_enter a cr c h
    = (c1, h ++ [VoidPending], k1, snd (Client.closePeerConn c) ++ [d]) /\
    dialing (Connect k1) = true /\
    dialOptionsOf d = Some opts /\
    DialOptions.authEntity opts = Client.orDefault a (Client.savedAuthEntity c) /\
    DialOptions.credentials opts = Client.orDefault cr (Client.savedCreds c) /\
    Client.savedAuthEntity c1 = DialOptions.authEntity opts /\
    Client.savedCreds c1 = DialOptions.credentials opts /\
    Client.connecting c1 = Some (length h) /\
    Client.webrtcOptions c1 = Client.webrtcOptions c /\
    Client.serviceHost c1 = Client.serviceHost c /\
    (k1 = Client.ConnAwaitDialWebRTC ->
     exists wo,
       Client.webrtcOptions c = Some wo /\ WebRTCOptions.enabled wo = true /\
       d = DialWebRTC
             (if String.eqb (WebRTCOptions.signalingAddress wo) ""
              then Client.serviceHost c
              else WebRTCOptions.signalingAddress wo)
             (WebRTCOptions.host wo) opts /\
       DialOptions.webrtcOptions opts
       = Some {| DialWebRTCOptions.disableTrickleICE := false;
                 DialWebRTCOptions.rtcConfig := WebRTCOptions.rtcConfig wo;
                 DialWebRTCOptions.signalingAuthEntity :=
                   DialOptions.authEntity opts;
                 DialWebRTCOptions.signalingCredentials :=
                   DialOptions.credentials opts |}) /\
    (k1 = Client.ConnAwaitDialDirect ->
     (forall wo, Client.webrtcOptions c = Some wo ->
                 WebRTCOptions.enabled wo = false) /\
     d = DialDirect (Client.serviceHost c) opts /\
     DialOptions.webrtcOptions opts
     = Some {| DialWebRTCOptions.disableTrickleICE := false;
               DialWebRTCOptions.rtcConfig :=
                 Client.webrtcOptions c ≫= WebRTCOptions.rtcConfig;
               DialWebRTCOptions.signalingAuthEntity := None;
               DialWebRTCOptions.signalingCredentials := None |}).
Proof.
  intros E. unfold Client.connect_enter. rewrite E. simpl.
  unfold Client.closePeerConn, Client.dial, Client.orElse; simpl.
  destruct (Client.peerConn c); simpl;
    destruct (Client.webrtcOptions c) as [o|] eqn:Ew; simpl;
    try destruct (WebRTCOptions.enabled o) eqn:Ee; simpl;
    eexists _, _, _, _; repeat split; try reflexivity; try discriminate.
  all: simpl; rewrite ?Ew; simpl; try reflexivity; try assumption;
    try discriminate.
  all: try (intros _; exists o; simpl; rewrite ?Ew; repeat split; simpl;
            rewrite ?Ew; auto; fail).
  all: try (intros ? [= <-]; assumption).
  all: try (intros; congruence).
Qed.

(** X6.  A [connect] call that finds no connect in flight dials with the
    identity and the credentials it was given, or with the saved ones for
    those left out, and saves what it dialed with before the dial is
    answered.  So, whatever the answer (a failure too), the next [connect]
    call made without arguments dials with that same identity and those same
    credentials. *)
Theorem connect_without_arguments_reuses_saved_credentials
  a cr c h inp c1 h1 k1 ev1 c2 h2 k2 ev2 :
  Client.connecting c = None ->
  Client.connect_enter a cr c h = (c1, h1, k1, ev1) ->
  Client.connect_step inp k1 c1 h1 = Some (c2, h2, k2, ev2) ->
  exists d opts c3 k3 d' opts',
    ev1 = snd (Client.closePeerConn c) ++ [d] /\
    dialOptionsOf d = Some opts /\
    DialOptions.authEntity opts = Client.orDefault a (Client.savedAuthEntity c) /\
    DialOptions.credentials opts = Client.orDefault cr (Client.savedCreds c) /\
    Client.connect_enter None None c2 h2
    = (c3, h2 ++ [VoidPending], k3, snd (Client.closePeerConn c2) ++ [d']) /\
    dialOptionsOf d' = Some opts' /\
    DialOptions.authEntity opts' = DialOptions.authEntity opts /\
    DialOptions.credentials opts' = DialOptions.credentials opts.
Proof.
  intros Hidle Henter Hstep.
  destruct (connect_enter_dials a cr c h Hidle)
    as (c1' & k1' & d & opts & He & Hdial & Hd & Ha & Hc & Hsa & Hsc & _).
  rewrite He in Henter. injection Henter as <- <- <- <-.
  apply (connect_dial_settled _ _ _ _ _ _ _ _ Hdial) in Hstep
    as (Hidle2 & _ & _ & Hsa2 & Hsc2 & _).
  destruct (connect_enter_dials None None c2 h2 Hidle2)
    as (c3 & k3 & d' & opts' & He' & _ & Hd' & Ha' & Hc' & _).
  exists d, opts, c3, k3, d', opts'.
  repeat split; try assumption.
  - rewrite Ha'. simpl. congruence.
  - rewrite Hc'. simpl. congruence.
Qed.

(** X7.  In a reachable system a peer connection is given up only by being
    closed: if a step leaves the client without the peer connection it
    held, that step closed it, once.  And a step closes nothing but the peer
    connection the client holds, and never while a dial is in flight. *)
Theorem peer_connection_given_up_only_closed
  w pool t inp w' t' started ev :
  reachable (w, pool) -> In t pool ->
  step inp t w = Some (w', t', started, ev) ->
  (forall pc,
      Client.peerConn (client w) = Some pc ->
      Client.peerConn (client w') = Some pc \/
      (In (PeerClose pc) ev /\ count isPeerClose ev = 1)) /\
  (forall pc,
      In (PeerClose pc) ev ->
      Client.peerConn (client w) = Some pc /\
      Client.peerConn (client w') = None /\
      count dialing pool = 0).
Proof.
  intros Hr Hin Hstep.
  pose proof (reachable_dialing_count _ _ Hr) as Hcount.
  assert (dialing t = true -> Client.peerConn (client w) = None) as Hnone.
  { intros Hd.
    destruct (reachable_dialing_tied _ _ _ Hr Hin Hd) as (p & _ & _ & _ & H).
    exact H. }
  clear Hr Hin. revert Hcount. generalize (count dialing pool). intros n Hn.
  open_world w. simpl in *.
  open_step Hstep; simpl in *.
  all: try (specialize (Hnone eq_refl); try discriminate Hnone).
  all: split; intros pc0 H0; simpl in H0.
  all: repeat match type of H0 with _ \/ _ => destruct H0 as [H0|H0] end.
  all: try discriminate H0; try contradiction.
  all: try (injection H0 as <-).
  all: try (left; reflexivity).
  all: try (left; assumption).
  all: try congruence.
  all: try (right; split; [left; reflexivity|reflexivity]).
  all: repeat split; try reflexivity; try assumption; try lia.
Qed.

(** X8.  Once [host] has returned, it returns the same host in every later
    state, after [disconnect] and after a failed [connect] as well, and
    [createServiceClient] returns a client for that host: "not connected
    yet" does not come back.  A transport factory, once set, is never
    cleared. *)
Theorem host_once_returned_always_returned x evs y s :
  sys_run x evs y ->
  Client.host (client (fst x)) = Returned s ->
  Client.host (client (fst y)) = Returned s /\
  (forall T (SC : string -> Client.ClientTransportFactory -> T),
      exists f, Client.createServiceClient SC (client (fst y))
                = Returned (SC s f)) /\
  (Client.transportFactory (client (fst x)) <> None ->
   Client.transportFactory (client (fst y)) <> None).
Proof.
  intros Hrun Hhost.
  destruct (sys_run_frame _ _ _ Hrun) as (_ & _ & Hsh & Hso & Htf).
  unfold Client.host, Client.createServiceClient,
    Client.clientTransportFactory, Client.sessionsDisabled in *.
  rewrite Hso, Hsh.
  destruct (Client.sessionOptions (client (fst x))) as [[[]]|]; simpl in *.
  - destruct (Client.transportFactory (client (fst x))) as [f|] eqn:E;
      [|discriminate]. simpl in Hhost.
    destruct (Client.transportFactory (client (fst y))) as [g|] eqn:E';
      [|exfalso; apply Htf; [discriminate|reflexivity]].
    simpl. injection Hhost as <-. repeat split; eauto; discriminate.
  - injection Hhost as <-. repeat split; eauto.
  - injection Hhost as <-. repeat split; eauto.
Qed.

Lemma reset_idempotent s :
  SessionManager.reset (SessionManager.reset s) = SessionManager.reset s.
Proof.
  unfold SessionManager.reset.
  destruct (SessionManager.starting s) eqn:E; simpl; rewrite E; reflexivity.
Qed.

(** X9.  [disconnect], when no connect is in flight, is idempotent: it ends
    at once, and a second [disconnect] right after it closes nothing and
    leaves the client exactly as the first one left it.  Neither touches the
    session id, the saved credentials or the transport factory. *)
Theorem disconnect_twice_is_disconnect_once c c1 k1 ev1 :
  Client.connecting c = None ->
  Client.disconnect_enter c = (c1, k1, ev1) ->
  k1 = Client.DiscDone /\
  Client.peerConn c1 = None /\
  Client.disconnect_enter c1 = (c1, Client.DiscDone, []) /\
  Client.sessionId c1 = Client.sessionId c /\
  Client.savedAuthEntity c1 = Client.savedAuthEntity c /\
  Client.savedCreds c1 = Client.savedCreds c /\
  Client.transportFactory c1 = Client.transportFactory c.
Proof.
  intros Hidle Hd. rewrite disconnect_enter_spec, Hidle in Hd.
  injection Hd as <- <- <-.
  split; [reflexivity|]. split; [reflexivity|].
  split; [|repeat split].
  - rewrite disconnect_enter_spec. simpl. rewrite Hidle.
    rewrite reset_idempotent. destruct c; reflexivity.
  - unfold Client.sessionId, SessionManager.sessionID. simpl.
    apply reset_frame.
Qed.

(** ** More on what getSessionMetadata returns and on the session fields *)

Lemma getSessionMetadataInner_shape s :
  SessionManager.getSessionMetadataInner s = ∅ \/
  (SessionManager.getSessionMetadataInner s
   = <["viam-sid" := SessionManager.currentSessionID s]> ∅ /\
   SessionManager.currentSessionID s <> "" /\
   SessionManager.sessionsSupported s = Some true).
Proof.
  unfold SessionManager.getSessionMetadataInner, SessionManager.supported.
  destruct (SessionManager.sessionsSupported s) as [[]|]; simpl; auto.
  destruct (String.eqb_spec (SessionManager.currentSessionID s) ""); simpl;
    auto.
Qed.

(** X10.  Whatever [getSessionMetadata] returns is either the empty metadata
    or the one entry "viam-sid", whose value is the stored session id; in
    the second case the id is not empty and support is recorded as
    supported.  No other key is ever set, and an empty id is never sent. *)
Theorem returned_metadata_is_empty_or_the_session_id
  inp k w w' md started ev :
  step inp (GetSessionMetadata k) w
  = Some (w', GetSessionMetadata (SessionManager.GsmDone (Returned md)),
          started, ev) ->
  (md = ∅ \/
   md = <["viam-sid" :=
            SessionManager.currentSessionID (sessionManager w')]> ∅ /\
   SessionManager.currentSessionID (sessionManager w') <> "" /\
   SessionManager.sessionsSupported (sessionManager w') = Some true) /\
  (forall key, key <> "viam-sid" -> md !! key = None) /\
  (forall v, md !! "viam-sid" = Some v ->
             v = SessionManager.currentSessionID (sessionManager w') /\
             v <> "").
Proof.
  intros Hstep.
  assert (md = ∅ \/
          md = <["viam-sid" :=
                   SessionManager.currentSessionID (sessionManager w')]> ∅ /\
          SessionManager.currentSessionID (sessionManager w') <> "" /\
          SessionManager.sessionsSupported (sessionManager w') = Some true)
    as Hshape.
  { open_world w. unfold sessionManager in *; simpl in *.
    destruct k as [|p| |[p|]|r]; destruct inp; simpl in Hstep;
      try discriminate Hstep;
      unfold SessionManager.getSessionMetadata_enter,
        SessionManager.getSessionMetadata_settled,
        SessionManager.getSessionMetadata_bail,
        SessionManager.getSessionMetadata_finally,
        SessionManager.heartbeat, SessionManager.heartbeat_wait,
        SessionManager.heartbeat_launch, SessionManager.doHeartbeat in Hstep;
      simpl in Hstep; break_step Hstep; inversion Hstep; subst; simpl;
      auto;
      match goal with
      | |- context [SessionManager.getSessionMetadataInner ?s] =>
          destruct (getSessionMetadataInner_shape s) as [->|(-> & ? & ?)];
          simpl in *; auto
      end. }
  split; [exact Hshape|].
  destruct Hshape as [->|(-> & Hid & _)]; split.
  - intros key _. apply lookup_empty.
  - intros v Hv. rewrite lookup_empty in Hv. discriminate.
  - intros key Hkey. rewrite lookup_insert_ne by congruence.
    apply lookup_empty.
  - intros v Hv. rewrite lookup_insert_eq in Hv. injection Hv as <-.
    split; [reflexivity|exact Hid].
Qed.

(** X11.  The stored heartbeat interval is changed by no step of any call.
    The stored session id changes in one way only: a success answer to
    [startSession] that carries a heartbeat window stores the answer's id,
    and records support.  No other step of any call ([connect],
    [disconnect], a heartbeat, a failed or refused negotiation) changes
    it. *)
Theorem session_id_changes_only_with_a_session_answer
  inp t w w' t' started ev :
  step inp t w = Some (w', t', started, ev) ->
  SessionManager.heartbeatIntervalMs (sessionManager w')
  = SessionManager.heartbeatIntervalMs (sessionManager w) /\
  (SessionManager.currentSessionID (sessionManager w')
   = SessionManager.currentSessionID (sessionManager w) \/
   (t = GetSessionMetadata SessionManager.GsmAwaitStartSession /\
    exists resp d,
      inp = StartSessionSettled (Returned resp) /\
      heartbeatWindow resp = Some d /\
      SessionManager.currentSessionID (sessionManager w') = id resp /\
      SessionManager.sessionsSupported (sessionManager w') = Some true /\
      Client.sessionId (client w') = id resp)).
Proof.
  intros Hstep. open_world w. unfold sessionManager; simpl.
  open_step Hstep; simpl.
  all: try match goal with
           | E : SessionManager.heartbeatInterval _ = Returned _ |- _ =>
               rewrite heartbeatInterval_throws in E; discriminate E
           end.
  all: split; [reflexivity|].
  all: try (left; reflexivity).
  all: right; split; [reflexivity|]; eexists _, _; repeat split; eassumption.
Qed.

(** X12.  Where the interval is defined and a loop re-arms by the means its
    window offers (as [loopArmed] says, and as holds of every loop that
    [heartbeat] launches once an interval is stored), every timer the loop
    arms carries the stored interval, which is defined; it is armed through
    the worker exactly if the window has [Worker], through [setTimeout]
    exactly if it has not; a worker is created only in a window that has
    [Worker]; and the same holds of the loop after the step. *)
Theorem timers_armed_with_the_stored_interval
  w t inp w' t' started ev e :
  loopArmed w t ->
  step inp t w = Some (w', t', started, ev) ->
  In e ev ->
  loopArmed w' t' /\
  match e with
  | WorkerPostMessage ms =>
      windowWorker w = true /\
      ms = SessionManager.heartbeatIntervalMs (sessionManager w') /\
      ms <> None
  | SetTimeout ms =>
      windowWorker w = false /\
      ms = SessionManager.heartbeatIntervalMs (sessionManager w') /\
      ms <> None
  | NewWorker => windowWorker w = true
  | _ => True
  end.
Proof.
  intros Hl Hstep He.
  open_world w. unfold sessionManager in *; simpl in *.
  open_step Hstep; simpl in *.
  all: try match goal with
           | E : SessionManager.heartbeatInterval _ = Returned _ |- _ =>
               rewrite heartbeatInterval_throws in E; discriminate E
           end.
  all: repeat match type of He with _ \/ _ => destruct He as [He|He] end.
  all: try contradiction; subst e; try (split; exact I).
  all: try (destruct Hl as (Hi & Hb)); try subst; repeat split;
         try reflexivity; try assumption; try discriminate.
Qed.

(** ** components/camera/ClientES.ts *)

(** X13.  [getPointCloud] reads [host] first.  If that throws (sessions
    disabled by configuration, and no transport factory) the call ends with
    "not connected yet" and nothing is sent.  Otherwise it sends one request
    to the service host, for point clouds in PCD of the camera it is named
    after, and returns the [pointCloud] of the answer, or throws the failure
    of the request.  Once it has been able to send, it is able to in every
    later state of the client, to the same host: after [disconnect] too. *)
Theorem getPointCloud_needs_host_only
  (PCD name : string) (c : Client.t) :
  (Client.sessionsDisabled c = true -> Client.transportFactory c = None ->
   CameraClientES.getPointCloud_step PCD CameraClientES.GpcResume
     CameraClientES.GpcCall name c
   = Some (CameraClientES.GpcDone (Threw (ThrownError "not connected yet")),
           [])) /\
  (Client.sessionsDisabled c = false \/ Client.transportFactory c <> None ->
   CameraClientES.getPointCloud_step PCD CameraClientES.GpcResume
     CameraClientES.GpcCall name c
   = Some (CameraClientES.GpcAwaitResponse,
           [CameraClientES.GetPointCloud (Client.serviceHost c)
              {| GetPointCloudRequest.mimeType := PCD;
                 GetPointCloudRequest.name := name |}])) /\
  (forall r,
      CameraClientES.getPointCloud_step PCD (CameraClientES.GpcSettled r)
        CameraClientES.GpcAwaitResponse name c
      = Some (CameraClientES.GpcDone
                match r with
                | Returned response =>
                    Returned (GetPointCloudResponse.pointCloud response)
                | Threw err => Threw err
                end, [])) /\
  (forall w pool evs w' pool' sent,
      client w = c ->
      sys_run (w, pool) evs (w', pool') ->
      CameraClientES.getPointCloud_step PCD CameraClientES.GpcResume
        CameraClientES.GpcCall name c
      = Some (CameraClientES.GpcAwaitResponse, sent) ->
      CameraClientES.getPointCloud_step PCD CameraClientES.GpcResume
        CameraClientES.GpcCall name (client w')
      = Some (CameraClientES.GpcAwaitResponse, sent)).
Proof.
  split; [|split; [|split]].
  - intros Hd Hf. simpl. unfold Client.host, Client.clientTransportFactory.
    rewrite Hd, Hf. reflexivity.
  - intros H. simpl. unfold Client.host, Client.clientTransportFactory.
    destruct (Client.sessionsDisabled c) eqn:Hd; [|reflexivity].
    destruct H as [H|H]; [discriminate|].
    destruct (Client.transportFactory c); [reflexivity|congruence].
  - intros [response|err]; reflexivity.
  - intros w pool evs w' pool' sent <- Hrun. simpl.
    destruct (Client.host (client w)) as [s|msg] eqn:Hh; [|discriminate].
    destruct (sys_run_frame _ _ _ Hrun) as (_ & _ & Hsh & Hso & Htf).
    simpl in *.
    assert (Client.host (client w') = Returned s) as ->; [|auto].
    unfold Client.host, Client.clientTransportFactory,
      Client.sessionsDisabled in *.
    rewrite Hso, Hsh.
    destruct (Client.sessionOptions (client w)) as [[[]]|]; simpl in *;
      try exact Hh.
    destruct (Client.transportFactory (client w)) as [f|]; [|discriminate].
    destruct (Client.transportFactory (client w')) as [g|];
      [exact Hh|exfalso; apply Htf; [discriminate|reflexivity]].
Qed.

(** ** The theorems above at work on concrete clients *)

Lemma negotiating_reachable :
  reachable
    (negotiatingWorld,
     [GetSessionMetadata SessionManager.GsmAwaitStartSession]).
Proof.
  exists "robot.local", None, None, false. eexists.
  run_call CallGetSessionMetadata.
  run_resume (@nil Task) (GetSessionMetadata SessionManager.GsmCall)
    (@nil Task) Resume.
  all: run_done.
Qed.

Lemma failedNegotiation_reachable :
  reachable
    (failedNegotiation,
     [GetSessionMetadata (SessionManager.GsmDone (Returned ∅));
      GetSessionMetadata (SessionManager.GsmAwaitStarting 0)]).
Proof.
  exists "robot.local", None, None, false. eexists.
  run_call CallGetSessionMetadata.
  run_resume (@nil Task) (GetSessionMetadata SessionManager.GsmCall)
    (@nil Task) Resume.
  run_call CallGetSessionMetadata.
  run_resume [_] (GetSessionMetadata SessionManager.GsmCall)
    (@nil Task) Resume.
  run_resume (@nil Task)
    (GetSessionMetadata SessionManager.GsmAwaitStartSession) [_]
    (StartSessionSettled (Threw unavailable)).
  all: run_done.
Qed.

Lemma dialingAsAlice_reachable :
  reachable (dialingAsAlice, [Connect Client.ConnAwaitDialDirect]).
Proof.
  exists "robot.local", None, None, false. eexists.
  run_call (CallConnect (Some "alice") None).
  run_resume (@nil Task) (Connect (Client.ConnCall (Some "alice") None))
    (@nil Task) Resume.
  all: run_done.
Qed.

Lemma connectedWebRTC_reachable :
  reachable
    (connectedWebRTC,
     [Connect (Client.ConnDone (Returned tt));
      Connect (Client.ConnCall None None)]).
Proof.
  exists "robot.local",
    (Some {| WebRTCOptions.enabled := true;
             WebRTCOptions.host := "robot.webrtc";
             WebRTCOptions.signalingAddress := "";
             WebRTCOptions.rtcConfig := None |}), None, true.
  eexists.
  run_call (CallConnect None None).
  run_resume (@nil Task) (Connect (Client.ConnCall None None)) (@nil Task)
    Resume.
  run_resume (@nil Task) (Connect Client.ConnAwaitDialWebRTC) (@nil Task)
    (DialWebRTCSettled
       (Returned {| WebRTCConnection.peerConnection := PeerConnection 3;
                    WebRTCConnection.transportFactory := Factory 4 |})).
  run_call (CallConnect None None).
  all: run_done.
Qed.

Lemma sessionAbc_reachable :
  reachable
    (sessionAbc,
     [GetSessionMetadata
        (SessionManager.GsmDone
           (Threw (SessionManager.Runtime JS.mixedTypes)))]).
Proof.
  exists "robot.local", None, None, false. eexists.
  run_call CallGetSessionMetadata.
  run_resume (@nil Task) (GetSessionMetadata SessionManager.GsmCall)
    (@nil Task) Resume.
  run_resume (@nil Task)
    (GetSessionMetadata SessionManager.GsmAwaitStartSession) (@nil Task)
    (StartSessionSettled (Returned abcResponse)).
  all: run_done.
Qed.

Lemma connectedWithSession_reachable :
  reachable
    (connectedWithSession,
     [Connect (Client.ConnDone (Returned tt));
      GetSessionMetadata
        (SessionManager.GsmDone
           (Threw (SessionManager.Runtime JS.mixedTypes)));
      Disconnect Client.DiscCall]).
Proof.
  exists "robot.local",
    (Some {| WebRTCOptions.enabled := true;
             WebRTCOptions.host := "robot.webrtc";
             WebRTCOptions.signalingAddress := "";
             WebRTCOptions.rtcConfig := None |}), None, true.
  eexists.
  run_call (CallConnect None None).
  run_resume (@nil Task) (Connect (Client.ConnCall None None)) (@nil Task)
    Resume.
  run_resume (@nil Task) (Connect Client.ConnAwaitDialWebRTC) (@nil Task)
    (DialWebRTCSettled
       (Returned {| WebRTCConnection.peerConnection := PeerConnection 3;
                    WebRTCConnection.transportFactory := Factory 4 |})).
  run_call CallGetSessionMetadata.
  run_resume [_] (GetSessionMetadata SessionManager.GsmCall)
    (@nil Task) Resume.
  run_resume [_]
    (GetSessionMetadata SessionManager.GsmAwaitStartSession) (@nil Task)
    (StartSessionSettled (Returned abcResponse)).
  run_call CallDisconnect.
  all: run_done.
Qed.

(** C4 on the fresh client after the answer "abc": the session is recorded,
    and there is neither interval nor loop. *)
Lemma established_session_witness :
  SessionManager.sessionsSupported (sessionManager sessionAbc) = Some true /\
  SessionManager.currentSessionID (sessionManager sessionAbc) = "abc" /\
  SessionManager.heartbeatIntervalMs (sessionManager sessionAbc) = None /\
  (forall inp w' t' started ev,
      step inp (GetSessionMetadata
                  (SessionManager.GsmDone
                     (Threw (SessionManager.Runtime JS.mixedTypes))))
        sessionAbc
      = Some (w', t', started, ev) ->
      started = [] /\ count isBeat ev = 0).
Proof.
  assert (SessionManager.sessionsSupported (sessionManager sessionAbc)
          = Some true) as H1 by by_evaluation.
  assert (SessionManager.currentSessionID (sessionManager sessionAbc) = "abc")
    as H2 by by_evaluation.
  destruct (established_session_starts_no_heartbeat_loop sessionAbc _
              sessionAbc_reachable) as (_ & H3 & _ & H4 & _).
  split; [exact H1|]. split; [exact H2|]. split; [exact H3|].
  intros inp w' t' started ev Hstep.
  exact (H4 _ inp w' t' started ev (or_introl eq_refl) Hstep).
Defined.

(** C5 on the client connected over WebRTC that holds session "abc", and
    on the client of "alice" while it is dialing. *)
Lemma disconnect_witness :
  (SessionManager.sessionsSupported (sessionManager connectedWithSession)
   = Some true /\
   exists w',
     step Resume (Disconnect Client.DiscCall) connectedWithSession
     = Some (w', Disconnect Client.DiscDone, [],
             [PeerClose (PeerConnection 3)]) /\
     Client.peerConn (client w') = None /\
     Client.transportFactory (client w') = Some (Factory 4) /\
     SessionManager.sessionsSupported (sessionManager w') = None /\
     SessionManager.currentSessionID (sessionManager w') = "abc") /\
  (Client.connecting (client dialingAsAlice) = Some 0 /\
   step Resume (Disconnect Client.DiscCall) dialingAsAlice
   = Some (dialingAsAlice,
           Disconnect (Client.DiscAwaitConnecting 0), [], []) /\
   forall inp,
     step inp (Disconnect (Client.DiscAwaitConnecting 0)) dialingAsAlice
     = None).
Proof.
  assert (Client.connecting (client connectedWithSession) = None)
    as Hc by by_evaluation.
  assert (Client.peerConn (client connectedWithSession)
          = Some (PeerConnection 3)) as Hpc by by_evaluation.
  assert (Client.transportFactory (client connectedWithSession)
          = Some (Factory 4)) as Htf by by_evaluation.
  assert (SessionManager.sessionsSupported (sessionManager connectedWithSession)
          = Some true) as Hsup by by_evaluation.
  assert (SessionManager.sessionsSupported
            (SessionManager.reset (sessionManager connectedWithSession))
          = None) as Hreset by by_evaluation.
  assert (SessionManager.currentSessionID
            (SessionManager.reset (sessionManager connectedWithSession))
          = "abc") as Hid by by_evaluation.
  assert (Client.connecting (client dialingAsAlice) = Some 0)
    as Hd by by_evaluation.
  pose proof (disconnect_waits_then_tears_down connectedWithSession _
                connectedWithSession_reachable) as (_ & H).
  rewrite Hc in H. cbv zeta in H. rewrite Hpc in H.
  destruct H as (_ & Hstep & _ & Hpeer & Hsm & Hfac & _).
  pose proof (disconnect_waits_then_tears_down dialingAsAlice _
                dialingAsAlice_reachable) as (_ & H').
  rewrite Hd in H'. destruct H' as (_ & _ & Hwait & Hstuck & _).
  split.
  - split; [exact Hsup|]. eexists. split; [exact Hstep|].
    split; [exact Hpeer|]. split; [rewrite Hfac; exact Htf|].
    rewrite Hsm. split; [exact Hreset|exact Hid].
  - split; [exact Hd|]. split; [exact Hwait|exact Hstuck].
Defined.


(** X1 at the first call on the fresh client. *)
Lemma startSession_sent_witness :
  step Resume (GetSessionMetadata SessionManager.GsmCall) fresh
  = Some (negotiatingWorld,
          GetSessionMetadata SessionManager.GsmAwaitStartSession, [],
          [StartSession {| resume := "" |}]) /\
  SessionManager.starting (sessionManager fresh) = None /\
  SessionManager.starting (sessionManager negotiatingWorld) <> None.
Proof.
  match goal with |- ?A /\ _ => assert A as Hstep by by_evaluation end.
  split; [exact Hstep|].
  pose proof (startSession_sent_only_when_idle fresh
                [called CallGetSessionMetadata] _ Resume _ _ _ _
                (reachable_one_call "robot.local" None None false
                   CallGetSessionMetadata)
                (or_introl eq_refl) Hstep) as (_ & H).
  destruct (H eq_refl) as (H1 & _ & _ & _ & H2 & _).
  split; [exact H1|exact H2].
Defined.

(** X2 at the first negotiation of the fresh client, answered "abc". *)
Lemma getSessionMetadata_throws_witness :
  exists w',
    step (StartSessionSettled (Returned abcResponse))
      (GetSessionMetadata SessionManager.GsmAwaitStartSession)
      negotiatingWorld
    = Some (w',
            GetSessionMetadata
              (SessionManager.GsmDone
                 (Threw (SessionManager.Runtime JS.mixedTypes))), [], []) /\
    SessionManager.sessionsSupported (sessionManager w') = Some true /\
    SessionManager.currentSessionID (sessionManager w') = "abc" /\
    SessionManager.starting (sessionManager w') = None.
Proof.
  eexists.
  match goal with |- ?A /\ _ => assert A as Hstep by evaluate_step end.
  split; [exact Hstep|].
  destruct (getSessionMetadata_throws_as_waiter_or_on_a_session_answer
              negotiatingWorld _ SessionManager.GsmAwaitStartSession
              (StartSessionSettled (Returned abcResponse)) _ _ _ _
              negotiating_reachable (or_introl eq_refl) Hstep)
    as (_ & _ & [(p & reason & Hk & _)|(resp & d & _ & Hi & _ & _ & H1 & H2 & H3)]
        & _).
  - discriminate Hk.
  - injection Hi as <-. split; [exact H1|]. split; [exact H2|exact H3].
Defined.

(** X3 at the first negotiation of the fresh client, answered "unavailable". *)
Lemma negotiation_outcome_witness :
  exists p,
    SessionManager.starting (sessionManager negotiatingWorld) = Some p /\
    startPromises negotiatingWorld !! p = Some Pending /\
    startPromises failedNegotiation !! p = Some (Rejected unavailable).
Proof.
  assert (step (StartSessionSettled (Threw unavailable))
            (GetSessionMetadata SessionManager.GsmAwaitStartSession)
            negotiatingWorld
          = Some (failedNegotiation,
                  GetSessionMetadata (SessionManager.GsmDone (Returned ∅)),
                  [], []))
    as Hstep by by_evaluation.
  destruct (negotiation_outcome_reaches_every_waiter negotiatingWorld _
              (Threw unavailable) _ _ _ _
              negotiating_reachable (or_introl eq_refl) Hstep)
    as (p & H1 & H2 & _ & H3 & _).
  exists p. repeat split; assumption.
Defined.

(** X4 at the first dial of "alice", which fails: a [disconnect] call that
    waited on it is resumed, and is done. *)
Lemma settled_dial_witness :
  exists w' p,
    step (DialDirectSettled (Threw (ThrownError "refused")))
      (Connect Client.ConnAwaitDialDirect) dialingAsAlice
    = Some (w', Connect (Client.ConnDone (Threw (ThrownError "refused"))),
            [], []) /\
    connectPromises dialingAsAlice !! p = Some VoidPending /\
    step Resume (Disconnect (Client.DiscAwaitConnecting p)) dialingAsAlice
    = None /\
    connectPromises w' !! p = Some VoidFulfilled /\
    step Resume (Disconnect (Client.DiscAwaitConnecting p)) w'
    = step Resume (Disconnect Client.DiscCall) w' /\
    step Resume (Disconnect Client.DiscCall) w'
    = Some (w', Disconnect Client.DiscDone, [], []).
Proof.
  eexists.
  match goal with
  | |- exists p, ?A /\ _ => assert A as Hstep by evaluate_step
  end.
  destruct (settled_dial_releases_waiting_calls dialingAsAlice _
              (Connect Client.ConnAwaitDialDirect)
              (DialDirectSettled (Threw (ThrownError "refused"))) _ _ _ _
              dialingAsAlice_reachable (or_introl eq_refl) eq_refl Hstep)
    as (p & _ & H2 & Hstuck & _ & H3 & Hlater).
  destruct (Hlater [] [] _ [] (run_nil _)) as (_ & _ & _ & Hsame).
  exists p. split; [exact Hstep|]. split; [exact H2|].
  split; [exact (proj2 (Hstuck Resume))|]. split; [exact H3|].
  split; [exact Hsame|]. by_evaluation.
Defined.

(** X5 at the first dial of "alice", which succeeds with factory 7. *)
Lemma dial_outcome_witness :
  exists w',
    step (DialDirectSettled (Returned (Factory 7)))
      (Connect Client.ConnAwaitDialDirect) dialingAsAlice
    = Some (w', Connect (Client.ConnDone (Returned tt)), [], []) /\
    Client.transportFactory (client w') = Some (Factory 7) /\
    Client.peerConn (client w') = None.
Proof.
  eexists.
  match goal with |- ?A /\ _ => assert A as Hstep by evaluate_step end.
  split; [exact Hstep|].
  destruct (dial_outcome_installs_or_keeps_factory dialingAsAlice _
              (Connect Client.ConnAwaitDialDirect)
              (DialDirectSettled (Returned (Factory 7))) _ _ _ _
              dialingAsAlice_reachable (or_introl eq_refl) eq_refl Hstep)
    as (_ & H & _).
  destruct (H (Factory 7) eq_refl) as (_ & H1 & H2 & _).
  split; [exact H1|exact H2].
Defined.

(** X6: "alice" connects with an api key, the dial fails, and [connect] is
    called again with no argument. *)
Lemma connect_reuses_credentials_witness :
  exists c1 h1 k1 ev1 c2 h2 k2 ev2 d opts c3 k3 d' opts',
    Client.connect_enter (Some "alice")
      (Some {| type := "api-key"; payload := "secret" |})
      (Client.new "robot.local" None None) []
    = (c1, h1, k1, ev1) /\
    Client.connect_step (DialDirectSettled (Threw (ThrownError "refused")))
      k1 c1 h1 = Some (c2, h2, k2, ev2) /\
    dialOptionsOf d = Some opts /\
    Client.connect_enter None None c2 h2
    = (c3, h2 ++ [VoidPending], k3, snd (Client.closePeerConn c2) ++ [d']) /\
    dialOptionsOf d' = Some opts' /\
    DialOptions.authEntity opts' = Some "alice" /\
    DialOptions.credentials opts'
    = Some {| type := "api-key"; payload := "secret" |}.
Proof.
  eexists _, _, _, _, _, _, _, _.
  match goal with
  | |- exists d opts c3 k3 d' opts', ?A /\ ?B /\ _ =>
      assert A as Henter by evaluate_step;
      assert B as Hstep by evaluate_step
  end.
  destruct (connect_without_arguments_reuses_saved_credentials
              (Some "alice")
              (Some {| type := "api-key"; payload := "secret" |})
              (Client.new "robot.local" None None) []
              (DialDirectSettled (Threw (ThrownError "refused")))
              _ _ _ _ _ _ _ _ eq_refl Henter Hstep)
    as (d & opts & c3 & k3 & d' & opts' & H1 & H2 & H3 & H4 & H5 & H6 & H7 & H8).
  exists d, opts, c3, k3, d', opts'.
  split; [exact Henter|]. split; [exact Hstep|].
  split; [exact H2|]. split; [exact H5|].
  split; [exact H6|]. split.
  - rewrite H7. exact H3.
  - rewrite H8. exact H4.
Defined.

(** X7 at a second [connect] on the client connected over WebRTC. *)
Lemma peer_connection_witness :
  exists w' t' ev,
    step Resume (Connect (Client.ConnCall None None)) connectedWebRTC
    = Some (w', t', [], ev) /\
    Client.peerConn (client connectedWebRTC) = Some (PeerConnection 3) /\
    In (PeerClose (PeerConnection 3)) ev /\
    count isPeerClose ev = 1 /\
    Client.peerConn (client w') = None.
Proof.
  eexists _, _, _.
  match goal with |- ?A /\ _ => assert A as Hstep by evaluate_step end.
  assert (Client.peerConn (client connectedWebRTC) = Some (PeerConnection 3))
    as Hpc by by_evaluation.
  split; [exact Hstep|]. split; [exact Hpc|].
  destruct (peer_connection_given_up_only_closed connectedWebRTC _
              (Connect (Client.ConnCall None None)) Resume _ _ _ _
              connectedWebRTC_reachable (or_intror (or_introl eq_refl))
              Hstep) as (H1 & H2).
  destruct (H1 (PeerConnection 3) Hpc) as [H|(Hin & Hc)];
    [discriminate H|].
  split; [exact Hin|]. split; [exact Hc|].
  exact (proj1 (proj2 (H2 _ Hin))).
Defined.

Lemma disconnect_after_connect_run :
  exists w',
    sys_run (connectedDirect, []) [] (w', [Disconnect Client.DiscDone]).
Proof.
  eexists.
  run_call CallDisconnect.
  run_resume (@nil Task) (Disconnect Client.DiscCall) (@nil Task) Resume.
  all: run_done.
Defined.

(** X8: the directly connected client is disconnected; [host] still
    returns. *)
Lemma host_after_disconnect_witness :
  exists w',
    sys_run (connectedDirect, []) [] (w', [Disconnect Client.DiscDone]) /\
    Client.host (client connectedDirect) = Returned "robot.local" /\
    Client.host (client w') = Returned "robot.local".
Proof.
  destruct disconnect_after_connect_run as (w' & Hrun).
  assert (Client.host (client connectedDirect) = Returned "robot.local")
    as Hhost by by_evaluation.
  exists w'. split; [exact Hrun|]. split; [exact Hhost|].
  exact (proj1 (host_once_returned_always_returned _ _ _ "robot.local"
                  Hrun Hhost)).
Defined.

(** X9 on the client connected over WebRTC. *)
Lemma disconnect_twice_witness :
  exists c1,
    Client.disconnect_enter (client connectedWebRTC)
    = (c1, Client.DiscDone, [PeerClose (PeerConnection 3)]) /\
    Client.disconnect_enter c1 = (c1, Client.DiscDone, []).
Proof.
  eexists.
  match goal with |- ?A /\ _ => assert A as Hd by evaluate_step end.
  assert (Client.connecting (client connectedWebRTC) = None)
    as Hidle by by_evaluation.
  split; [exact Hd|].
  exact (proj1 (proj2 (proj2
           (disconnect_twice_is_disconnect_once (client connectedWebRTC)
              _ _ _ Hidle Hd)))).
Defined.

(** X10 at a call made while session "abc" is held. *)
Lemma returned_metadata_witness :
  exists w' md,
    step Resume (GetSessionMetadata SessionManager.GsmCall) sessionAbc
    = Some (w', GetSessionMetadata (SessionManager.GsmDone (Returned md)),
            [], []) /\
    (forall key, key <> "viam-sid" -> md !! key = None).
Proof.
  eexists _, _.
  match goal with |- ?A /\ _ => assert A as Hstep by evaluate_step end.
  split; [exact Hstep|].
  exact (proj1 (proj2
           (returned_metadata_is_empty_or_the_session_id Resume
              SessionManager.GsmCall sessionAbc _ _ _ _ Hstep))).
Defined.

(** X11 at the answer that makes session "abc". *)
Lemma session_id_changes_witness :
  exists w',
    step (StartSessionSettled (Returned abcResponse))
      (GetSessionMetadata SessionManager.GsmAwaitStartSession)
      negotiatingWorld
    = Some (w',
            GetSessionMetadata
              (SessionManager.GsmDone
                 (Threw (SessionManager.Runtime JS.mixedTypes))), [], []) /\
    SessionManager.heartbeatIntervalMs (sessionManager w')
    = SessionManager.heartbeatIntervalMs (sessionManager negotiatingWorld) /\
    (SessionManager.currentSessionID (sessionManager w')
     = SessionManager.currentSessionID (sessionManager negotiatingWorld) \/
     Client.sessionId (client w') = "abc").
Proof.
  eexists.
  match goal with |- ?A /\ _ => assert A as Hstep by evaluate_step end.
  split; [exact Hstep|].
  destruct (session_id_changes_only_with_a_session_answer
              (StartSessionSettled (Returned abcResponse))
              (GetSessionMetadata SessionManager.GsmAwaitStartSession)
              negotiatingWorld _ _ _ _ Hstep)
    as (Hi & [H|(_ & resp & d & Hinp & _ & _ & _ & H)]).
  - split; [exact Hi|]. left. exact H.
  - split; [exact Hi|]. right. injection Hinp as <-. exact H.
Defined.

(** X12 at the first answer to a heartbeat of a loop for session "abc",
    with an interval of 1000, in a window without [Worker]. *)
Lemma timers_armed_witness :
  loopArmed beatingAbc (Heartbeat (SessionManager.HbAwaitSend false)) /\
  exists w',
    step (HeartbeatSettled (Returned tt))
      (Heartbeat (SessionManager.HbAwaitSend false)) beatingAbc
    = Some (w', Heartbeat (SessionManager.HbSleeping false), [],
            [SetTimeout (Some (JS.Number 1000))]) /\
    windowWorker beatingAbc = false /\
    Some (JS.Number 1000)
    = SessionManager.heartbeatIntervalMs (sessionManager w') /\
    loopArmed w' (Heartbeat (SessionManager.HbSleeping false)).
Proof.
  assert (loopArmed beatingAbc (Heartbeat (SessionManager.HbAwaitSend false)))
    as Hl.
  { split; [discriminate|reflexivity]. }
  split; [exact Hl|]. eexists.
  match goal with |- ?A /\ _ => assert A as Hstep by evaluate_step end.
  split; [exact Hstep|].
  destruct (timers_armed_with_the_stored_interval beatingAbc
              (Heartbeat (SessionManager.HbAwaitSend false))
              (HeartbeatSettled (Returned tt)) _ _ _ _
              (SetTimeout (Some (JS.Number 1000)))
              Hl Hstep (or_introl eq_refl)) as (Hl' & H1 & H2 & _).
  split; [exact H1|]. split; [exact H2|exact Hl'].
Defined.

(** X14.  Which dialer a [connect] call uses, when no connect is in
    flight.  With WebRTC options that are enabled it calls the WebRTC dialer,
    at the signaling address, or at the service host if that address is
    empty, for the host of the options, and gives the signaling the same
    identity and credentials as the dial.  With no WebRTC options, or with
    options not enabled, it calls the direct dialer at the service host, with
    no signaling identity.  Trickle ICE is left enabled in both. *)
Theorem connect_dials_as_configured a cr c h :
  Client.connecting c = None ->
  exists c1 k1 d,
    Client.connect_enter a cr c h
    = (c1, h ++ [VoidPending], k1, snd (Client.closePeerConn c) ++ [d]) /\
    (forall wo,
        Client.webrtcOptions c = Some wo -> WebRTCOptions.enabled wo = true ->
        k1 = Client.ConnAwaitDialWebRTC /\
        d = DialWebRTC
              (if String.eqb (WebRTCOptions.signalingAddress wo) ""
               then Client.serviceHost c
               else WebRTCOptions.signalingAddress wo)
              (WebRTCOptions.host wo)
              {| DialOptions.authEntity :=
                   Client.orDefault a (Client.savedAuthEntity c);
                 DialOptions.credentials :=
                   Client.orDefault cr (Client.savedCreds c);
                 DialOptions.webrtcOptions :=
                   Some {| DialWebRTCOptions.disableTrickleICE := false;
                           DialWebRTCOptions.rtcConfig :=
                             WebRTCOptions.rtcConfig wo;
                           DialWebRTCOptions.signalingAuthEntity :=
                             Client.orDefault a (Client.savedAuthEntity c);
                           DialWebRTCOptions.signalingCredentials :=
                             Client.orDefault cr (Client.savedCreds c) |} |}) /\
    (Client.webrtcOptions c = None \/
     (exists wo, Client.webrtcOptions c = Some wo /\
                 WebRTCOptions.enabled wo = false) ->
     k1 = Client.ConnAwaitDialDirect /\
     d = DialDirect (Client.serviceHost c)
           {| DialOptions.authEntity :=
                Client.orDefault a (Client.savedAuthEntity c);
              DialOptions.credentials :=
                Client.orDefault cr (Client.savedCreds c);
              DialOptions.webrtcOptions :=
                Some {| DialWebRTCOptions.disableTrickleICE := false;
                        DialWebRTCOptions.rtcConfig :=
                          Client.webrtcOptions c ≫= WebRTCOptions.rtcConfig;
                        DialWebRTCOptions.signalingAuthEntity := None;
                        DialWebRTCOptions.signalingCredentials := None |} |}).
Proof.
  intros E. unfold Client.connect_enter. rewrite E. simpl.
  unfold Client.closePeerConn, Client.dial, Client.orElse,
    Client.withSignalingAuth, Client.dialOptions; simpl.
  destruct (Client.peerConn c); simpl;
    destruct (Client.webrtcOptions c) as [o|] eqn:Ew; simpl;
    try destruct (WebRTCOptions.enabled o) eqn:Ee; simpl;
    eexists _, _, _; (split; [reflexivity|]); split.
  all: try (intros wo [= <-] He; split; [reflexivity|]; simpl; reflexivity).
  all: try (intros wo [= <-] He; congruence).
  all: try (intros wo [=]; fail).
  all: try (intros [[=]|(wo & [= <-] & He)]; congruence).
  all: intros _; split; reflexivity.
Qed.

(** X14 on the client configured for WebRTC with an empty signaling
    address: the signaling goes to the service host. *)
Lemma connect_dials_as_configured_witness :
  exists c1 k1 opts,
    Client.connect_enter (Some "alice") None (client freshWebRTC) []
    = (c1, [VoidPending], k1,
       [DialWebRTC "robot.local" "robot.webrtc" opts]).
Proof.
  destruct (connect_dials_as_configured (Some "alice") None
              (client freshWebRTC) [] eq_refl)
    as (c1 & k1 & d & He & Hw & _).
  destruct (Hw _ eq_refl eq_refl) as (_ & Hd).
  exists c1, k1. eexists. rewrite He, Hd. reflexivity.
Defined.

(** X15.  The fields tell which calls are in flight, in every reachable
    system.  [connecting] is set exactly while one call is dialing, and then
    [connectResolve] resolves that same promise, the promise is pending and
    no peer connection is held.  [starting] is set exactly while one call is
    negotiating, and then [startResolve] and [startReject] belong to that
    same promise; while that call waits for the answer the promise is
    pending and no support is recorded, and while it waits on its own
    promise support is recorded as supported.  There is never more than one
    dial, nor more than one negotiation, in flight. *)
Theorem fields_tell_the_calls_in_flight w pool :
  reachable (w, pool) ->
  count dialing pool <= 1 /\
  count awaitingStartSession pool + count awaitingOwnStarting pool <= 1 /\
  match Client.connecting (client w) with
  | Some p =>
      count dialing pool = 1 /\
      Client.connectResolve (client w) = Some p /\
      connectPromises w !! p = Some VoidPending /\
      Client.peerConn (client w) = None
  | None => count dialing pool = 0
  end /\
  match SessionManager.starting (sessionManager w) with
  | Some p =>
      count awaitingStartSession pool + count awaitingOwnStarting pool = 1 /\
      SessionManager.startResolve (sessionManager w) = Some p /\
      SessionManager.startReject (sessionManager w) = Some p /\
      (0 < count awaitingStartSession pool ->
       startPromises w !! p = Some Pending /\
       SessionManager.sessionsSupported (sessionManager w) = None) /\
      (0 < count awaitingOwnStarting pool ->
       SessionManager.sessionsSupported (sessionManager w) = Some true)
  | None =>
      count awaitingStartSession pool + count awaitingOwnStarting pool = 0
  end.
Proof.
  intros Hr.
  pose proof (reachable_inv _ Hr) as (Hd & Hn & Hs & Ho).
  pose proof (reachable_tied _ Hr) as (Hc & Hst & Hneg & _ & _).
  unfold connectingTied, startingTied, negotiationPending in *.
  simpl fst in *; simpl snd in *.
  pose proof (held_le_1 (Client.connecting (client w))).
  pose proof (held_le_1 (SessionManager.starting (sessionManager w))).
  split; [lia|]. split; [lia|]. split.
  - destruct (Client.connecting (client w)) as [p|]; simpl in Hd; [|exact Hd].
    tauto.
  - destruct (SessionManager.starting (sessionManager w)) as [p|];
      simpl in Hn; [|exact Hn].
    destruct Hst as (H1 & H2).
    split; [exact Hn|]. split; [exact H1|]. split; [exact H2|]. split.
    + intros Hpos. destruct (Hneg Hpos) as (q & [= <-] & Hq). auto.
    + exact Ho.
Qed.

(** X15 while "alice" is dialing. *)
Lemma fields_tell_witness :
  count dialing [Connect Client.ConnAwaitDialDirect] = 1 /\
  Client.connecting (client dialingAsAlice) = Some 0 /\
  connectPromises dialingAsAlice !! 0 = Some VoidPending.
Proof.
  assert (Client.connecting (client dialingAsAlice) = Some 0)
    as Hc by by_evaluation.
  pose proof (fields_tell_the_calls_in_flight dialingAsAlice _
                dialingAsAlice_reachable) as (_ & _ & H & _).
  rewrite Hc in H. destruct H as (H1 & _ & H2 & _).
  split; [exact H1|]. split; [exact Hc|exact H2].
Defined.
